(** * Temporal-snake: the cross-platform terminal UI shim of [curses.h]

    A shallow embedding of [class WINDOW] and [class TerminalUI] together
    with the small part of the operating system they talk to (the mode of
    the terminal behind stdin, the pending input, the size report and the
    stream written to stdout), followed by the properties of the embedding.

    The header is compiled either for Windows or for a POSIX system; every
    [#ifdef _WIN32 ... #else ... #endif] of the source is a [match] on a
    [platform] here, so both branches are kept side by side. *)

From Stdlib Require Import ZArith Lia Bool Ascii String.
From stdpp Require Import base option list relations.

Local Open Scope Z_scope.

(** ** Key definitions (curses.h, lines 21-27) *)

Definition KEY_UP : Z := 72.
Definition KEY_DOWN : Z := 80.
Definition KEY_LEFT : Z := 75.
Definition KEY_RIGHT : Z := 77.
Definition KEY_ENTER : Z := 13.
Definition KEY_BACKSPACE : Z := 8.
Definition KEY_ESC : Z := 27.

(** The seven codes in the order the header defines them. *)
Definition reserved_keys : list Z :=
  [KEY_UP; KEY_DOWN; KEY_LEFT; KEY_RIGHT; KEY_ENTER; KEY_BACKSPACE; KEY_ESC].

(** Printable ASCII: the codes 32 (space) to 126 (tilde). *)
Definition printable (c : Z) : bool := (32 <=? c) && (c <=? 126).

(** ** Platform headers

    The constants and structures below are those of [<termios.h>],
    [<sys/ioctl.h>] and [<windows.h>]; the header includes them and does not
    define them.  The numeric values are the ones of Linux (asm-generic
    termbits) and of the Windows SDK. *)

Inductive platform : Set := WIN32 | POSIX.

Module Termios.

Definition ICANON : Z := 2.
Definition ECHO : Z := 8.
Definition VTIME : nat := 5.
Definition VMIN : nat := 6.
Definition NCCS : nat := 32.

(** [struct termios]: the four flag words and the control characters. *)
Record termios : Type := Build_termios {
  c_iflag : Z;
  c_oflag : Z;
  c_cflag : Z;
  c_lflag : Z;
  c_cc : list Z
}.

(** [struct winsize], the two fields the header reads. *)
Record winsize : Type := Build_winsize {
  ws_row : Z;
  ws_col : Z
}.

(** [t.c_lflag &= ~(ICANON | ECHO); t.c_cc[VMIN] = 0; t.c_cc[VTIME] = 0;]
    (lines 79-81, and again lines 261-263).  [c_lflag] is unsigned, the
    mask is the [int] complement converted to it: the bits of ICANON and
    ECHO are cleared and every other bit is kept. *)
Definition make_raw (t : termios) : termios :=
  {| c_iflag := c_iflag t;
     c_oflag := c_oflag t;
     c_cflag := c_cflag t;
     c_lflag := Z.land (c_lflag t) (Z.lnot (Z.lor ICANON ECHO));
     c_cc := <[VTIME := 0]> (<[VMIN := 0]> (c_cc t)) |}.

(** A [char] holding the byte [b] (0..255), converted to [int]: [char] is
    signed on the x86 targets, so bytes from 128 on come out negative. *)
Definition char_of_byte (b : Z) : Z := if b <? 128 then b else b - 256.

End Termios.

Module Win.

Definition ENABLE_PROCESSED_INPUT : Z := 1.
Definition ENABLE_LINE_INPUT : Z := 2.
Definition ENABLE_ECHO_INPUT : Z := 4.
Definition ENABLE_MOUSE_INPUT : Z := 16.

Definition VK_BACK : Z := 8.
Definition VK_RETURN : Z := 13.
Definition VK_ESCAPE : Z := 27.
Definition VK_LEFT : Z := 37.
Definition VK_UP : Z := 38.
Definition VK_RIGHT : Z := 39.
Definition VK_DOWN : Z := 40.

(** The handles the header meets: the console input buffer (what
    [GetStdHandle(STD_INPUT_HANDLE)] returns), the screen buffer, and
    whatever an unset [HANDLE] field holds. *)
Inductive HANDLE : Set := ConIn | ConOut | NoHandle.

Definition HANDLE_eqb (a b : HANDLE) : bool :=
  match a, b with
  | ConIn, ConIn | ConOut, ConOut | NoHandle, NoHandle => true
  | _, _ => false
  end.

(** [KEY_EVENT_RECORD], the three members [windows_getch] reads.
    [AsciiChar] is a [CHAR], given here by its value as a signed char. *)
Record KEY_EVENT_RECORD : Type := Build_KEY_EVENT_RECORD {
  bKeyDown : bool;
  wVirtualKeyCode : Z;
  AsciiChar : Z
}.

(** [INPUT_RECORD]: a tagged union; [EventType == KEY_EVENT] selects the
    key record, every other tag (mouse, resize, focus, menu) is kept as
    the tag alone. *)
Inductive INPUT_RECORD : Type :=
| KeyEvent (k : KEY_EVENT_RECORD)
| OtherEvent (EventType : Z).

(** [SMALL_RECT], as found in [CONSOLE_SCREEN_BUFFER_INFO.srWindow]. *)
Record SMALL_RECT : Type := Build_SMALL_RECT {
  Left : Z;
  Top : Z;
  Right : Z;
  Bottom : Z
}.

(** [mode &= ~(ENABLE_LINE_INPUT | ENABLE_ECHO_INPUT |
    ENABLE_PROCESSED_INPUT); mode |= ENABLE_MOUSE_INPUT;] (lines 70-71). *)
Definition make_raw (mode : Z) : Z :=
  Z.lor
    (Z.land mode
       (Z.lnot (Z.lor (Z.lor ENABLE_LINE_INPUT ENABLE_ECHO_INPUT)
                  ENABLE_PROCESSED_INPUT)))
    ENABLE_MOUSE_INPUT.

(** The private members of [TerminalUI] under [#ifdef _WIN32]
    (lines 56-57). *)
Record fields : Type := Build_fields {
  console_handle : HANDLE;
  old_console_mode : Z
}.

End Win.

(** ** The operating system, as far as the header observes it *)

(** The configuration of the terminal behind stdin: the console input mode
    ([DWORD]) on Windows, the [struct termios] on POSIX. *)
Definition tty_mode (p : platform) : Type :=
  match p with
  | WIN32 => Z
  | POSIX => Termios.termios
  end.

(** One unit of pending input: a console input record, or a byte. *)
Definition input_item (p : platform) : Type :=
  match p with
  | WIN32 => Win.INPUT_RECORD
  | POSIX => Z
  end.

(** What the size query reports. *)
Definition size_report (p : platform) : Type :=
  match p with
  | WIN32 => Win.SMALL_RECT
  | POSIX => Termios.winsize
  end.

(** What reaches the display: [system("cls")] / [system("clear")], a
    character written to [std::cout], and [std::endl]. *)
Inductive out_event : Set :=
| Clear
| Put (ch : ascii)
| Endl.

(** [tty] is the mode of the terminal behind stdin, [pending] the input not
    yet read, [reported] what the structure handed to the size query holds
    once the call is over, [display] what was sent to the display so far. *)
Record OS (p : platform) : Type := Build_OS {
  tty : tty_mode p;
  pending : list (input_item p);
  reported : size_report p;
  display : list out_event
}.
Arguments Build_OS {p}.
Arguments tty {p}.
Arguments pending {p}.
Arguments reported {p}.
Arguments display {p}.

Definition set_tty {p} (o : OS p) (m : tty_mode p) : OS p :=
  Build_OS m (pending o) (reported o) (display o).
Definition set_pending {p} (o : OS p) (q : list (input_item p)) : OS p :=
  Build_OS (tty o) q (reported o) (display o).
Definition emit {p} (o : OS p) (es : list out_event) : OS p :=
  Build_OS (tty o) (pending o) (reported o) (display o ++ es).

(** ** class WINDOW (lines 29-41) *)

Record WINDOW : Type := Build_WINDOW {
  height : Z;
  width : Z;
  start_y : Z;
  start_x : Z;
  buffer : list (list ascii)
}.

(** The constructor: [buffer.resize(height, std::vector<char>(width, ' '))].
    A negative [int] converted to [size_t] is larger than any vector may be,
    and the standard library throws: that outcome is [None]. *)
Definition new_WINDOW (h w y x : Z) : option WINDOW :=
  if (0 <=? h) && (0 <=? w) then
    Some {| height := h; width := w; start_y := y; start_x := x;
            buffer := replicate (Z.to_nat h) (replicate (Z.to_nat w) " "%char) |}
  else None.

(** The representation invariant of a WINDOW: [height] rows of [width]
    cells each. *)
Definition window_ok (w : WINDOW) : Prop :=
  Z.of_nat (length (buffer w)) = height w ∧
  Forall (λ row, Z.of_nat (length row) = width w) (buffer w).

(** The cell at row [y], column [x], when the buffer has one there. *)
Definition cell (w : WINDOW) (y x : nat) : option ascii :=
  buffer w !! y ≫= λ row, row !! x.

(** [w->buffer[y][x] = ch] for indices already converted to [size_t].
    [operator[]] past the end of a vector is undefined: [None]. *)
Definition buffer_store (w : WINDOW) (y x : nat) (ch : ascii) : option WINDOW :=
  row ← buffer w !! y;
  if decide (x < length row)%nat then
    Some {| height := height w; width := width w;
            start_y := start_y w; start_x := start_x w;
            buffer := <[y := <[x := ch]> row]> (buffer w) |}
  else None.

(** ** class TerminalUI: the data members (lines 45-60) *)

(** The members under [#ifdef _WIN32 ... #else ... #endif]:
    [console_handle] and [old_console_mode], or [old_termios]. *)
Definition platform_fields (p : platform) : Type :=
  match p with
  | WIN32 => Win.fields
  | POSIX => Termios.termios
  end.

(** [current_window] is a pointer to the one WINDOW the object owns;
    [nullptr] is [None]. *)
Record TerminalUI (p : platform) : Type := Build_TerminalUI {
  current_window : option WINDOW;
  is_initialized : bool;
  echo_mode : bool;
  nodelay_mode : bool;
  cursor_visible : bool;
  saved : platform_fields p
}.
Arguments Build_TerminalUI {p}.
Arguments current_window {p}.
Arguments is_initialized {p}.
Arguments echo_mode {p}.
Arguments nodelay_mode {p}.
Arguments cursor_visible {p}.
Arguments saved {p}.

Definition old_termios (t : TerminalUI POSIX) : Termios.termios := saved t.
Definition console_handle (t : TerminalUI WIN32) : Win.HANDLE :=
  Win.console_handle (saved t).
Definition old_console_mode (t : TerminalUI WIN32) : Z :=
  Win.old_console_mode (saved t).

Definition set_current_window {p} (t : TerminalUI p) (w : option WINDOW) : TerminalUI p :=
  Build_TerminalUI w (is_initialized t) (echo_mode t) (nodelay_mode t)
    (cursor_visible t) (saved t).
Definition set_is_initialized {p} (t : TerminalUI p) (b : bool) : TerminalUI p :=
  Build_TerminalUI (current_window t) b (echo_mode t) (nodelay_mode t)
    (cursor_visible t) (saved t).
Definition set_echo_mode {p} (t : TerminalUI p) (b : bool) : TerminalUI p :=
  Build_TerminalUI (current_window t) (is_initialized t) b (nodelay_mode t)
    (cursor_visible t) (saved t).
Definition set_nodelay_mode {p} (t : TerminalUI p) (b : bool) : TerminalUI p :=
  Build_TerminalUI (current_window t) (is_initialized t) (echo_mode t) b
    (cursor_visible t) (saved t).
Definition set_cursor_visible {p} (t : TerminalUI p) (b : bool) : TerminalUI p :=
  Build_TerminalUI (current_window t) (is_initialized t) (echo_mode t)
    (nodelay_mode t) b (saved t).
Definition set_saved {p} (t : TerminalUI p) (f : platform_fields p) : TerminalUI p :=
  Build_TerminalUI (current_window t) (is_initialized t) (echo_mode t)
    (nodelay_mode t) (cursor_visible t) f.

(** The constructor (lines 318-325).  It leaves the platform members
    unset; [junk] is whatever they hold. *)
Definition TerminalUI_new {p} (junk : platform_fields p) : TerminalUI p :=
  Build_TerminalUI None false true false true junk.

(** The object together with the operating system it runs on. *)
Record Machine (p : platform) : Type := Build_Machine {
  ui : TerminalUI p;
  os : OS p
}.
Arguments Build_Machine {p}.
Arguments ui {p}.
Arguments os {p}.

(** ** The system calls the header makes

    stdin is taken to be a terminal, so [tcgetattr] and [tcsetattr] on it
    succeed.  The console calls take the handle stored in the object: they
    succeed on the console input buffer and fail, changing nothing, on any
    other handle. *)

Definition tcgetattr (o : OS POSIX) : Termios.termios := tty o.
Definition tcsetattr (o : OS POSIX) (t : Termios.termios) : OS POSIX :=
  set_tty o t.

Definition GetConsoleMode (h : Win.HANDLE) (o : OS WIN32) : option Z :=
  if Win.HANDLE_eqb h Win.ConIn then Some (tty o) else None.
Definition SetConsoleMode (h : Win.HANDLE) (mode : Z) (o : OS WIN32) : OS WIN32 :=
  if Win.HANDLE_eqb h Win.ConIn then set_tty o mode else o.

(** ** setup_terminal and restore_terminal (lines 63-93) *)

Definition setup_terminal {p} : Machine p → Machine p :=
  match p with
  | WIN32 => λ m,
      let h := Win.ConIn in
      let old := default (old_console_mode (ui m)) (GetConsoleMode h (os m)) in
      let mode := Win.make_raw old in
      {| ui := set_saved (ui m)
                 {| Win.console_handle := h; Win.old_console_mode := old |};
         os := SetConsoleMode h mode (os m) |}
  | POSIX => λ m,
      let old := tcgetattr (os m) in
      let new_termios := Termios.make_raw old in
      {| ui := set_saved (ui m) old;
         os := tcsetattr (os m) new_termios |}
  end.

Definition restore_terminal {p} : Machine p → Machine p :=
  match p with
  | WIN32 => λ m,
      {| ui := ui m;
         os := SetConsoleMode (console_handle (ui m)) (old_console_mode (ui m))
                 (os m) |}
  | POSIX => λ m,
      {| ui := ui m; os := tcsetattr (os m) (old_termios (ui m)) |}
  end.

(** ** windows_getch (lines 97-128) *)

(** The body of the loop for one key-down record: the [switch] on the
    virtual key code, then [if (ascii_char) return ascii_char;].  [None]
    means that the loop goes on to the next record. *)
Definition key_down_code (k : Win.KEY_EVENT_RECORD) : option Z :=
  let virtual_key_code := Win.wVirtualKeyCode k in
  let ascii_char := Win.AsciiChar k in
  if virtual_key_code =? Win.VK_UP then Some KEY_UP
  else if virtual_key_code =? Win.VK_DOWN then Some KEY_DOWN
  else if virtual_key_code =? Win.VK_LEFT then Some KEY_LEFT
  else if virtual_key_code =? Win.VK_RIGHT then Some KEY_RIGHT
  else if virtual_key_code =? Win.VK_RETURN then Some KEY_ENTER
  else if virtual_key_code =? Win.VK_BACK then Some KEY_BACKSPACE
  else if virtual_key_code =? Win.VK_ESCAPE then Some KEY_ESC
  else if negb (ascii_char =? 0) then Some ascii_char
  else None.

(** [while (true) { ReadConsoleInput(...); ... }] over the records that are
    or will be in the console input buffer: each turn takes one record.
    The result is the code returned and the records left; [None] when no
    record of the queue makes the loop return, and the call waits. *)
Fixpoint windows_getch (queue : list Win.INPUT_RECORD) : option (Z * list Win.INPUT_RECORD) :=
  match queue with
  | [] => None
  | input_record :: rest =>
      match input_record with
      | Win.KeyEvent k =>
          if Win.bKeyDown k then
            match key_down_code k with
            | Some code => Some (code, rest)
            | None => windows_getch rest
            end
          else windows_getch rest
      | Win.OtherEvent _ => windows_getch rest
      end
  end.

(** ** getch (lines 252-273) *)

Inductive getch_result (p : platform) : Type :=
| Returned (code : Z) (m : Machine p)
    (* the call returns [code] *)
| Unset (m : Machine p)
    (* POSIX: nothing was read, the call returns the unset [char ch] *)
| Waits.
    (* Windows: the loop never returns *)
Arguments Returned {p}.
Arguments Unset {p}.
Arguments Waits {p}.

Definition getch {p} : Machine p → getch_result p :=
  match p with
  | WIN32 => λ m,
      if Win.HANDLE_eqb (console_handle (ui m)) Win.ConIn then
        match windows_getch (pending (os m)) with
        | Some (code, rest) =>
            Returned code {| ui := ui m; os := set_pending (os m) rest |}
        | None => Waits
        end
      else Waits
  | POSIX => λ m,
      let old_settings := tcgetattr (os m) in
      let new_settings := Termios.make_raw old_settings in
      let o := tcsetattr (os m) new_settings in
      (* read(STDIN_FILENO, &ch, 1) with VMIN = 0 and VTIME = 0 *)
      match pending o with
      | [] =>
          Unset {| ui := ui m; os := tcsetattr o old_settings |}
      | byte :: rest =>
          Returned (Termios.char_of_byte byte)
            {| ui := ui m; os := tcsetattr (set_pending o rest) old_settings |}
      end
  end.

(** ** detect_screen_size (lines 178-194) *)

(** The two assignments before the fallback, as (height, width). *)
Definition queried_size {p} : size_report p → Z * Z :=
  match p with
  | WIN32 => λ srWindow,
      (Win.Bottom srWindow - Win.Top srWindow + 1,
       Win.Right srWindow - Win.Left srWindow + 1)
  | POSIX => λ w, (Termios.ws_row w, Termios.ws_col w)
  end.

Definition detect_screen_size {p} (o : OS p) : Z * Z :=
  let '(height, width) := queried_size (reported o) in
  let width := if width <=? 0 then 80 else width in
  let height := if height <=? 0 then 24 else height in
  (height, width).

(** ** initscr and endwin (lines 133-175) *)

(** [None] when [new WINDOW(...)] throws.  The pointer the source returns
    is the [current_window] of the resulting object. *)
Definition initscr {p} (m : Machine p) : option (Machine p) :=
  let t := ui m in
  let t := set_is_initialized t true in
  let t := set_echo_mode t true in
  let t := set_nodelay_mode t false in
  let t := set_cursor_visible t true in
  let '(height, width) := detect_screen_size (os m) in
  win ← new_WINDOW height width 0 0;
  let t := set_current_window t (Some win) in
  Some (setup_terminal {| ui := t; os := os m |}).

Definition endwin {p} (m : Machine p) : Machine p :=
  if negb (is_initialized (ui m)) then m
  else
    let m := restore_terminal m in
    let o := emit (os m) [Clear] in
    let t :=
      match current_window (ui m) with
      | Some _ => set_current_window (ui m) None
      | None => ui m
      end in
    {| ui := set_is_initialized t false; os := o |}.

(** ** Mode configuration (lines 197-217) *)

Definition noecho {p} (t : TerminalUI p) : TerminalUI p :=
  set_echo_mode t false.

Definition keypad {p} (enable : bool) (t : TerminalUI p) : TerminalUI p := t.

Definition nodelay {p} (enable : bool) (t : TerminalUI p) : TerminalUI p :=
  set_nodelay_mode t enable.

Definition cbreak {p} (m : Machine p) : Machine p := setup_terminal m.

(** ** getmaxyx (lines 233-241): the pair (height, width) it stores *)

Definition getmaxyx (win : option WINDOW) : Z * Z :=
  match win with
  | Some w => (height w, width w)
  | None => (0, 0)
  end.

(** ** mvaddch (lines 244-249) *)

Definition with_buffer (w : WINDOW) (b : list (list ascii)) : WINDOW :=
  {| height := height w; width := width w;
     start_y := start_y w; start_x := start_x w; buffer := b |}.

(** [None] is undefined behaviour (a store outside the vectors); every
    other outcome is the object after the call. *)
Definition mvaddch {p} (y x : Z) (ch : ascii) (t : TerminalUI p) : option (TerminalUI p) :=
  match current_window t with
  | None => Some t
  | Some w =>
      if (0 <=? y) && (y <? height w) && (0 <=? x) && (x <? width w) then
        w' ← buffer_store w (Z.to_nat y) (Z.to_nat x) ch;
        Some (set_current_window t (Some w'))
      else Some t
  end.

(** ** mvprintw (lines 276-295) *)

(** A C string ends at its first NUL. *)
Fixpoint c_str (cs : list ascii) : list ascii :=
  match cs with
  | [] => []
  | c :: rest => if Ascii.eqb c Ascii.zero then [] else c :: c_str rest
  end.

(** [char buffer[1024]; vsnprintf(buffer, sizeof(buffer), format, args);
    std::string str(buffer);] where [expansion] is the text that the format
    and its arguments expand to: 1023 characters fit before the terminating
    NUL, and [str] ends at the first NUL of the array. *)
Definition formatted (expansion : string) : list ascii :=
  c_str (take 1023 (list_ascii_of_string expansion)).

(** [for (size_t i = 0; i < str.length() && x + i < width; ++i)
      buffer[y][x + i] = str[i];]
    The list is what is left of [str] from index [i] on.  The loop runs
    only after the guard made [x] non-negative, so that [x + i] as a
    [size_t] is the plain sum. *)
Fixpoint mvprintw_loop (w : WINDOW) (y x : Z) (i : nat) (str : list ascii) : option WINDOW :=
  match str with
  | [] => Some w
  | c :: rest =>
      if x + Z.of_nat i <? width w then
        w' ← buffer_store w (Z.to_nat y) (Z.to_nat (x + Z.of_nat i)) c;
        mvprintw_loop w' y x (S i) rest
      else Some w
  end.

Definition mvprintw {p} (y x : Z) (expansion : string) (t : TerminalUI p) : option (TerminalUI p) :=
  match current_window t with
  | None => Some t
  | Some w =>
      if (y <? 0) || (height w <=? y) || (x <? 0) || (width w <=? x) then Some t
      else
        w' ← mvprintw_loop w y x 0 (formatted expansion);
        Some (set_current_window t (Some w'))
  end.

(** ** refresh (lines 298-315) *)

Definition refresh {p} (m : Machine p) : Machine p :=
  match current_window (ui m) with
  | None => m
  | Some w =>
      let rows := mbind (λ row, (Put <$> row) ++ [Endl]) (buffer w) in
      {| ui := ui m; os := emit (os m) (Clear :: rows) |}
  end.

(** The destructor (lines 328-332). *)
Definition TerminalUI_delete {p} (m : Machine p) : Machine p :=
  if is_initialized (ui m) then endwin m else m.

(** ** Observations and sample states used in the statements *)

(** The position of a WINDOW on the terminal and its declared size. *)
Definition geometry (w : WINDOW) : Z * Z * Z * Z :=
  (height w, width w, start_y w, start_x w).

(** A 2 x 4 window of blanks owned by a POSIX object, for the examples. *)
Definition sample_window : WINDOW :=
  {| height := 2; width := 4; start_y := 0; start_x := 0;
     buffer := replicate 2 (replicate 4 " "%char) |}.

Definition sample_termios : Termios.termios :=
  {| Termios.c_iflag := 1280; Termios.c_oflag := 5; Termios.c_cflag := 191;
     Termios.c_lflag := 35387;
     Termios.c_cc := [3; 28; 127; 21; 4; 0; 1; 0; 17; 19; 26; 0; 18; 15; 23; 22]
                     ++ replicate 16 0 |}.

Definition sample_ui : TerminalUI POSIX :=
  set_current_window (TerminalUI_new (p:=POSIX) sample_termios) (Some sample_window).

Definition sample_os : OS POSIX :=
  Build_OS (p:=POSIX) sample_termios []
    {| Termios.ws_row := 24; Termios.ws_col := 80 |} [].

(** A POSIX process right after the constructor ran, on a terminal in its
    usual cooked mode (ICANON and ECHO set, VMIN = 1). *)
Definition sample_machine : Machine POSIX :=
  {| ui := TerminalUI_new (p:=POSIX) sample_termios; os := sample_os |}.

(** That process after its call of [initscr]. *)
Definition started_machine : Machine POSIX :=
  default sample_machine (initscr sample_machine).

(** The same process when the up-arrow key has been pressed: a terminal
    sends it as the three bytes ESC [ A. *)
Definition arrow_up_machine : Machine POSIX :=
  {| ui := ui sample_machine; os := set_pending sample_os [27; 91; 65] |}.

(** Terminals that report no height, or no size at all. *)
Definition no_height_os : OS POSIX :=
  Build_OS (p:=POSIX) sample_termios []
    {| Termios.ws_row := 0; Termios.ws_col := 132 |} [].

Definition no_size_machine : Machine POSIX :=
  {| ui := TerminalUI_new (p:=POSIX) sample_termios;
     os := Build_OS (p:=POSIX) sample_termios []
             {| Termios.ws_row := 0; Termios.ws_col := 0 |} [] |}.

(** The same process with stdout not a terminal (a pipe, a file): the size
    query fails and leaves [struct winsize w] as the stack had it, here
    with 57248 and 27544 in the two fields the header reads. *)
Definition piped_machine : Machine POSIX :=
  {| ui := TerminalUI_new (p:=POSIX) sample_termios;
     os := Build_OS (p:=POSIX) sample_termios []
             {| Termios.ws_row := 57248; Termios.ws_col := 27544 |} [] |}.

(** The virtual key codes that the [switch] of [windows_getch] names. *)
Definition special_keys : list Z :=
  [Win.VK_UP; Win.VK_DOWN; Win.VK_LEFT; Win.VK_RIGHT; Win.VK_RETURN;
   Win.VK_BACK; Win.VK_ESCAPE].

(** The raw-mode mutation of either platform. *)
Definition raw_mode {p} : tty_mode p → tty_mode p :=
  match p with
  | WIN32 => Win.make_raw
  | POSIX => Termios.make_raw
  end.

(** ** Runs of a program that uses the object

    A member function that only touches the object is lifted to the
    machine; [step] lists the calls a program can make and what the outside
    world can do between two calls (keys are typed, the terminal is
    resized); [reachable] are the machines a program can be in, starting
    from a freshly constructed object. *)

Definition lift_ui {p} (f : TerminalUI p → TerminalUI p) (m : Machine p) : Machine p :=
  {| ui := f (ui m); os := os m |}.

Definition lift_draw {p} (f : TerminalUI p → option (TerminalUI p)) (m : Machine p) : option (Machine p) :=
  t ← f (ui m); Some {| ui := t; os := os m |}.

Inductive step {p} : Machine p → Machine p → Prop :=
| step_initscr m m' : initscr m = Some m' → step m m'
| step_endwin m : step m (endwin m)
| step_noecho m : step m (lift_ui noecho m)
| step_keypad m enable : step m (lift_ui (keypad enable) m)
| step_nodelay m enable : step m (lift_ui (nodelay enable) m)
| step_cbreak m : step m (cbreak m)
| step_mvaddch m m' y x ch : lift_draw (mvaddch y x ch) m = Some m' → step m m'
| step_mvprintw m m' y x e : lift_draw (mvprintw y x e) m = Some m' → step m m'
| step_getch m m' code : getch m = Returned code m' → step m m'
| step_getch_unset m m' : getch m = Unset m' → step m m'
| step_refresh m : step m (refresh m)
| step_typed m more :
    step m {| ui := ui m; os := set_pending (os m) (pending (os m) ++ more) |}
| step_resized m size :
    step m {| ui := ui m;
              os := Build_OS (tty (os m)) (pending (os m)) size (display (os m)) |}.

Inductive reachable {p} : Machine p → Prop :=
| reachable_new junk o : reachable {| ui := TerminalUI_new junk; os := o |}
| reachable_step m m' : reachable m → step m m' → reachable m'.

(** What every reachable machine satisfies: an object that is not
    initialized owns no window, and an owned window is well formed. *)
Definition consistent {p} (m : Machine p) : Prop :=
  (is_initialized (ui m) = false → current_window (ui m) = None) ∧
  (∀ w, current_window (ui m) = Some w → window_ok w).

(** ** Further observations *)

(** The records on which the loop of [windows_getch] returns: a key-down
    record whose virtual key code is one of the [switch] or whose character
    is not zero. *)
Definition qualifies (ev : Win.INPUT_RECORD) : bool :=
  match ev with
  | Win.KeyEvent k =>
      Win.bKeyDown k &&
      match key_down_code k with Some _ => true | None => false end
  | Win.OtherEvent _ => false
  end.

(** What the caller of [getch] can tell: whether the call returns, with
    which code if it is a set one, and the operating system it leaves. *)
Definition getch_outcome {p} (r : getch_result p) : option (option Z * OS p) :=
  match r with
  | Returned code m => Some (Some code, os m)
  | Unset m => Some (None, os m)
  | Waits => None
  end.

(** The line feed: the byte that [std::endl] writes, and the byte written
    for a cell that holds a newline. *)
Definition LF : ascii := "010"%char.

(** The lines written to stdout since the display was last cleared, read
    off the bytes: a line ends at each line feed, whether it comes from
    [std::endl] or from a character of the buffer.  [rows] are the lines
    ended so far, [cur] the bytes of the line being written. *)
Fixpoint lines_from (rows : list (list ascii)) (cur : list ascii) (es : list out_event) : list (list ascii) :=
  match es with
  | [] => rows
  | Clear :: es => lines_from [] [] es
  | Put ch :: es =>
      if Ascii.eqb ch LF then lines_from (rows ++ [cur]) [] es
      else lines_from rows (cur ++ [ch]) es
  | Endl :: es => lines_from (rows ++ [cur]) [] es
  end.

Definition written_lines (es : list out_event) : list (list ascii) :=
  lines_from [] [] es.

(** Whether the handle stored in the object is the console input buffer;
    there is no handle on POSIX. *)
Definition handle_ready {p} : TerminalUI p → bool :=
  match p with
  | WIN32 => λ t, Win.HANDLE_eqb (console_handle t) Win.ConIn
  | POSIX => λ _, true
  end.

(** The terminal mode stored in the object: [old_console_mode] or
    [old_termios]. *)
Definition saved_mode {p} : TerminalUI p → tty_mode p :=
  match p with
  | WIN32 => λ t, old_console_mode t
  | POSIX => λ t, old_termios t
  end.

(** The steps of a program other than [initscr], [cbreak] and [endwin]. *)
Inductive calm_step {p} : Machine p → Machine p → Prop :=
| calm_noecho m : calm_step m (lift_ui noecho m)
| calm_keypad m enable : calm_step m (lift_ui (keypad enable) m)
| calm_nodelay m enable : calm_step m (lift_ui (nodelay enable) m)
| calm_mvaddch m m' y x ch :
    lift_draw (mvaddch y x ch) m = Some m' → calm_step m m'
| calm_mvprintw m m' y x e :
    lift_draw (mvprintw y x e) m = Some m' → calm_step m m'
| calm_getch m m' code : getch m = Returned code m' → calm_step m m'
| calm_getch_unset m m' : getch m = Unset m' → calm_step m m'
| calm_refresh m : calm_step m (refresh m)
| calm_typed m more :
    calm_step m
      {| ui := ui m; os := set_pending (os m) (pending (os m) ++ more) |}
| calm_resized m size :
    calm_step m
      {| ui := ui m;
         os := Build_OS (tty (os m)) (pending (os m)) size (display (os m)) |}.

(** What holds of the object in every state a program can reach: it is
    initialized exactly when it owns a window, that window has its declared
    number of rows and columns, at least one of each, and sits at the
    origin, and on Windows the stored handle is the console input buffer
    once the object is initialized. *)
Definition sound {p} (m : Machine p) : Prop :=
  (is_initialized (ui m) = false → current_window (ui m) = None) ∧
  (is_initialized (ui m) = true →
   handle_ready (ui m) = true ∧
   ∃ w, current_window (ui m) = Some w ∧ window_ok w ∧
        1 ≤ height w ∧ 1 ≤ width w ∧ start_y w = 0 ∧ start_x w = 0).

(** A 1 x 3 window and an object that owns it, and a Windows machine with
    a few input records pending, for the examples. *)
Definition strip_window : WINDOW :=
  {| height := 1; width := 3; start_y := 0; start_x := 0;
     buffer := [["a"; "b"; "c"]%char] |}.

Definition strip_machine : Machine POSIX :=
  {| ui := Build_TerminalUI (p:=POSIX) (Some strip_window) true true false true
             sample_termios;
     os := sample_os |}.

Definition win_machine : Machine WIN32 :=
  {| ui := Build_TerminalUI (p:=WIN32) None true true false true
             {| Win.console_handle := Win.ConIn; Win.old_console_mode := 487 |};
     os := Build_OS (p:=WIN32) 496
             [Win.OtherEvent 2;
              Win.KeyEvent {| Win.bKeyDown := false; Win.wVirtualKeyCode := 65;
                              Win.AsciiChar := 97 |};
              Win.KeyEvent {| Win.bKeyDown := true; Win.wVirtualKeyCode := 16;
                              Win.AsciiChar := 0 |};
              Win.KeyEvent {| Win.bKeyDown := true; Win.wVirtualKeyCode := 65;
                              Win.AsciiChar := 97 |};
              Win.OtherEvent 4]
             {| Win.Left := 0; Win.Top := 0; Win.Right := 79; Win.Bottom := 24 |}
             [] |}.

(** * Properties *)

(** ** Rows and cells of a WINDOW *)

Section Buffer.

Implicit Types (w : WINDOW) (row : list ascii) (ch : ascii).

Lemma with_buffer_same w : with_buffer w (buffer w) = w.
Proof. by destruct w. Qed.

Lemma window_ok_row w y row :
  window_ok w → buffer w !! y = Some row → Z.of_nat (length row) = width w.
Proof.
  intros [_ Hrows] Hy.
  by apply (proj1 (Forall_lookup _ _) Hrows y row).
Qed.

Lemma window_ok_lookup w y :
  window_ok w → 0 ≤ y < height w → is_Some (buffer w !! Z.to_nat y).
Proof.
  intros [Hlen _] Hy. apply lookup_lt_is_Some. lia.
Qed.

Lemma window_ok_set_row w y row row' :
  window_ok w → buffer w !! y = Some row → length row' = length row →
  window_ok (with_buffer w (<[y := row']> (buffer w))).
Proof.
  intros Hok Hy Hlen. pose proof (window_ok_row _ _ _ Hok Hy) as Hw.
  destruct Hok as [Hh Hrows]. split; simpl.
  - by rewrite length_insert.
  - apply Forall_insert; [done | lia].
Qed.

Lemma buffer_store_Some w y x ch row :
  buffer w !! y = Some row → (x < length row)%nat →
  buffer_store w y x ch = Some (with_buffer w (<[y := <[x := ch]> row]> (buffer w))).
Proof.
  intros Hy Hx. unfold buffer_store. rewrite Hy. simpl.
  by rewrite decide_True.
Qed.

Lemma cell_set_row w y row' r c :
  (y < length (buffer w))%nat →
  cell (with_buffer w (<[y := row']> (buffer w))) r c =
  if decide (r = y) then row' !! c else cell w r c.
Proof.
  intros Hy. unfold cell; simpl. case_decide as Hr.
  - subst r. by rewrite list_lookup_insert_eq.
  - by rewrite list_lookup_insert_ne.
Qed.

(** The fresh buffer of the constructor. *)
Lemma new_WINDOW_ok (h k y x : Z) w :
  new_WINDOW h k y x = Some w → window_ok w.
Proof.
  unfold new_WINDOW. destruct (_ && _) eqn:Hpos; [|done].
  apply andb_prop in Hpos as [Hh Hw]. intros [= <-].
  split; simpl.
  - rewrite length_replicate. lia.
  - apply Forall_replicate. rewrite length_replicate. lia.
Qed.

Lemma new_WINDOW_blank (h k y x : Z) w r c ch :
  new_WINDOW h k y x = Some w → cell w r c = Some ch → ch = " "%char.
Proof.
  unfold new_WINDOW. destruct (_ && _); [|done]. intros [= <-].
  unfold cell; simpl. intros Hc.
  apply bind_Some in Hc as (row & Hrow & Hc).
  apply lookup_replicate in Hrow as [-> _].
  by apply lookup_replicate in Hc as [-> _].
Qed.

(** What the copy loop of [mvprintw] leaves in row [y]: the cells before
    column [n] stay, the characters of [str] that fit follow, and the cells
    after them stay. *)
Lemma mvprintw_loop_row w y x i str row :
  0 ≤ x →
  window_ok w →
  buffer w !! Z.to_nat y = Some row →
  let n := (Z.to_nat x + i)%nat in
  mvprintw_loop w y x i str =
  Some (with_buffer w
          (<[Z.to_nat y := take n row ++ take (length row - n) str
                           ++ drop (n + length str) row]> (buffer w))).
Proof.
  intros Hx. revert w i row.
  induction str as [|c rest IH]; intros w i row Hok Hy n; simpl.
  - rewrite take_nil, Nat.add_0_r. simpl. rewrite take_drop.
    by rewrite list_insert_id, with_buffer_same.
  - pose proof (window_ok_row _ _ _ Hok Hy) as Hw.
    destruct (x + Z.of_nat i <? width w) eqn:Hlt.
    + apply Z.ltb_lt in Hlt.
      assert (Z.to_nat (x + Z.of_nat i) = n) as -> by (subst n; lia).
      assert (n < length row)%nat as Hn by lia.
      rewrite (buffer_store_Some _ _ _ _ row) by done. simpl.
      set (w1 := with_buffer w _).
      assert (window_ok w1) as Hok1.
      { apply (window_ok_set_row _ _ row); [done..|]. by rewrite length_insert. }
      assert (buffer w1 !! Z.to_nat y = Some (<[n := c]> row)) as Hy1.
      { subst w1; simpl. apply list_lookup_insert_eq. by eapply lookup_lt_Some. }
      rewrite (IH w1 (S i) _ Hok1 Hy1).
      replace (Z.to_nat x + S i)%nat with (S n) by (subst n; lia).
      subst w1; simpl. rewrite list_insert_insert_eq, length_insert.
      unfold with_buffer; simpl. do 3 f_equal.
      destruct (lookup_lt_is_Some_2 row n Hn) as [old Hold].
      rewrite (take_S_r _ _ c) by by rewrite list_lookup_insert_eq.
      rewrite take_insert_ge by lia.
      rewrite drop_insert_lt by lia.
      replace (length row - n)%nat with (S (length row - S n)) by lia.
      simpl. rewrite <- app_assoc. simpl.
      by replace (n + S (length rest))%nat with (S n + length rest)%nat by lia.
    + apply Z.ltb_ge in Hlt.
      assert (length row ≤ n)%nat as Hn by (subst n; lia).
      rewrite take_ge by done.
      replace (length row - n)%nat with 0%nat by lia.
      rewrite take_0, drop_ge by lia. simpl. rewrite app_nil_r.
      by rewrite list_insert_id, with_buffer_same.
Qed.

End Buffer.

(** ** Drawing: mvaddch and mvprintw *)

Lemma sample_window_ok : window_ok sample_window.
Proof. split; [reflexivity | repeat constructor]. Qed.

Section Drawing.

Context {p : platform}.
Implicit Types (t : TerminalUI p) (w : WINDOW) (ch : ascii) (e : string).

Lemma in_bounds_guard w (y x : Z) :
  (0 <=? y) && (y <? height w) && (0 <=? x) && (x <? width w) = true
  ↔ 0 ≤ y < height w ∧ 0 ≤ x < width w.
Proof. rewrite !andb_true_iff, !Z.leb_le, !Z.ltb_lt. lia. Qed.

Lemma out_of_bounds_guard w (y x : Z) :
  (y <? 0) || (height w <=? y) || (x <? 0) || (width w <=? x) = false
  ↔ 0 ≤ y < height w ∧ 0 ≤ x < width w.
Proof. rewrite !orb_false_iff, !Z.leb_gt, !Z.ltb_ge. lia. Qed.

(** The store of [mvaddch] on a well-formed window, in bounds. *)
Lemma mvaddch_in_bounds t w (y x : Z) ch row :
  current_window t = Some w → window_ok w →
  0 ≤ y < height w → 0 ≤ x < width w →
  buffer w !! Z.to_nat y = Some row →
  mvaddch y x ch t =
  Some (set_current_window t
          (Some (with_buffer w
                   (<[Z.to_nat y := <[Z.to_nat x := ch]> row]> (buffer w))))).
Proof.
  intros Hw Hok Hy Hx Hrow. unfold mvaddch. rewrite Hw.
  rewrite (proj2 (in_bounds_guard w y x)) by done.
  pose proof (window_ok_row _ _ _ Hok Hrow).
  rewrite (buffer_store_Some _ _ _ _ row) by (done || lia).
  done.
Qed.

(** The whole of [mvprintw] on a well-formed window, in bounds. *)
Lemma mvprintw_in_bounds t w (y x : Z) e row :
  current_window t = Some w → window_ok w →
  0 ≤ y < height w → 0 ≤ x < width w →
  buffer w !! Z.to_nat y = Some row →
  mvprintw y x e t =
  Some (set_current_window t
          (Some (with_buffer w
                   (<[Z.to_nat y :=
                        take (Z.to_nat x) row
                        ++ take (Z.to_nat (width w - x)) (formatted e)
                        ++ drop (Z.to_nat x + length (formatted e)) row]>
                      (buffer w))))).
Proof.
  intros Hw Hok Hy Hx Hrow. unfold mvprintw. rewrite Hw.
  rewrite (proj2 (out_of_bounds_guard w y x)) by done.
  rewrite (mvprintw_loop_row w y x 0 _ row) by (done || lia). simpl.
  pose proof (window_ok_row _ _ _ Hok Hrow).
  rewrite Nat.add_0_r.
  by replace (length row - Z.to_nat x)%nat with (Z.to_nat (width w - x)) by lia.
Qed.

(** C3 (plot).  [mvaddch] returns normally with the object untouched when
    no window is owned or when (y, x) is outside [0,height) x [0,width);
    for (y, x) inside, it returns normally and the cell at row y, column x
    of the owned window then holds ch. *)
Theorem mvaddch_plot t (y x : Z) ch :
  (current_window t = None → mvaddch y x ch t = Some t) ∧
  (∀ w, current_window t = Some w →
        ¬ (0 ≤ y < height w ∧ 0 ≤ x < width w) →
        mvaddch y x ch t = Some t) ∧
  (∀ w, current_window t = Some w → window_ok w →
        0 ≤ y < height w → 0 ≤ x < width w →
        ∃ w', mvaddch y x ch t = Some (set_current_window t (Some w')) ∧
              cell w' (Z.to_nat y) (Z.to_nat x) = Some ch).
Proof.
  split; [|split].
  - intros Hw. unfold mvaddch. by rewrite Hw.
  - intros w Hw Hout. unfold mvaddch. rewrite Hw.
    destruct (_ && _) eqn:Hin; [|done].
    by apply in_bounds_guard in Hin.
  - intros w Hw Hok Hy Hx.
    destruct (window_ok_lookup w y Hok Hy) as [row Hrow].
    pose proof (window_ok_row _ _ _ Hok Hrow).
    eexists. split; [by apply (mvaddch_in_bounds t w y x _ row)|].
    rewrite cell_set_row by by eapply lookup_lt_Some.
    rewrite decide_True by done. apply list_lookup_insert_eq. lia.
Qed.

(** C4 (print_at).  [mvprintw] writes nothing when no window is owned or
    when the start (y, x) is out of bounds.  For a start in bounds, row y
    becomes: its first x cells, then the characters of the formatted string
    from the left, as many as fit before the right edge (width - x of them
    at most), then the cells after the text.  Printing HELLO at
    (0, width - 2) puts H and E in the last two columns of row 0. *)
Theorem mvprintw_copies t (y x : Z) e :
  (current_window t = None → mvprintw y x e t = Some t) ∧
  (∀ w, current_window t = Some w →
        ¬ (0 ≤ y < height w ∧ 0 ≤ x < width w) →
        mvprintw y x e t = Some t) ∧
  (∀ w row, current_window t = Some w → window_ok w →
        0 ≤ y < height w → 0 ≤ x < width w →
        buffer w !! Z.to_nat y = Some row →
        mvprintw y x e t =
        Some (set_current_window t
                (Some (with_buffer w
                   (<[Z.to_nat y :=
                        take (Z.to_nat x) row
                        ++ take (Z.to_nat (width w - x)) (formatted e)
                        ++ drop (Z.to_nat x + length (formatted e)) row]>
                      (buffer w)))))) ∧
  (∀ w row, current_window t = Some w → window_ok w →
        0 < height w → 2 ≤ width w →
        buffer w !! 0%nat = Some row →
        mvprintw 0 (width w - 2) "HELLO" t =
        Some (set_current_window t
                (Some (with_buffer w
                   (<[0%nat := take (Z.to_nat (width w - 2)) row
                               ++ ["H"; "E"]%char]> (buffer w)))))).
Proof.
  split; [|split; [|split]].
  - intros Hw. unfold mvprintw. by rewrite Hw.
  - intros w Hw Hout. unfold mvprintw. rewrite Hw.
    destruct (_ || _) eqn:Hin; [done|].
    by apply out_of_bounds_guard in Hin.
  - intros w row. apply mvprintw_in_bounds.
  - intros w row Hw Hok Hh Hwd Hrow.
    pose proof (window_ok_row _ _ _ Hok Hrow).
    rewrite (mvprintw_in_bounds t w 0 (width w - 2) "HELLO" row)
      by (done || lia).
    replace (Z.to_nat (width w - (width w - 2))) with 2%nat by lia.
    rewrite drop_ge by (simpl; lia).
    done.
Qed.

(** C10 (frame).  In bounds, on a well-formed window, [mvaddch] changes no
    cell but (y, x) and [mvprintw] changes no cell outside row y from
    column x on; both leave height, width and origin as they were, and the
    buffer keeps its shape. *)
Theorem drawing_frame t w (y x : Z) :
  current_window t = Some w → window_ok w →
  0 ≤ y < height w → 0 ≤ x < width w →
  (∀ ch, ∃ w',
      mvaddch y x ch t = Some (set_current_window t (Some w')) ∧
      geometry w' = geometry w ∧ window_ok w' ∧
      ∀ r c, (r, c) ≠ (Z.to_nat y, Z.to_nat x) → cell w' r c = cell w r c) ∧
  (∀ e, ∃ w',
      mvprintw y x e t = Some (set_current_window t (Some w')) ∧
      geometry w' = geometry w ∧ window_ok w' ∧
      ∀ r c, r ≠ Z.to_nat y ∨ (c < Z.to_nat x)%nat → cell w' r c = cell w r c).
Proof.
  intros Hw Hok Hy Hx.
  destruct (window_ok_lookup w y Hok Hy) as [row Hrow].
  pose proof (window_ok_row _ _ _ Hok Hrow) as Hlen.
  pose proof (lookup_lt_Some _ _ _ Hrow) as Hylt.
  split.
  - intros ch. eexists. split; [by apply (mvaddch_in_bounds t w y x _ row)|].
    split; [done|]. split.
    + apply (window_ok_set_row _ _ row); [done..|]. by rewrite length_insert.
    + intros r c Hne. rewrite cell_set_row by done.
      case_decide as Hr; [|done]. subst r. unfold cell. rewrite Hrow. simpl.
      apply list_lookup_insert_ne. congruence.
  - intros e. eexists. split; [by apply (mvprintw_in_bounds t w y x _ row)|].
    split; [done|]. split.
    + apply (window_ok_set_row _ _ row); [done..|].
      rewrite !length_app, !length_take, length_drop. lia.
    + intros r c Hrc. rewrite cell_set_row by done.
      case_decide as Hr; [|done]. subst r.
      destruct Hrc as [|Hc]; [done|].
      unfold cell. rewrite Hrow. simpl.
      rewrite lookup_app_l by (rewrite length_take; lia).
      by apply lookup_take_lt.
Qed.

End Drawing.

(** ** Key codes *)

(** C1, as amended.  The seven key codes are pairwise distinct; those of
    ENTER, BACKSPACE and ESC lie outside the printable range 32..126, while
    those of the four arrows lie inside it: they are the codes of the
    letters H, P, K and M. *)
Theorem reserved_keys_distinct :
  NoDup reserved_keys ∧
  printable KEY_ENTER = false ∧
  printable KEY_BACKSPACE = false ∧
  printable KEY_ESC = false ∧
  (printable KEY_UP = true ∧ KEY_UP = Z.of_N (N_of_ascii "H")) ∧
  (printable KEY_DOWN = true ∧ KEY_DOWN = Z.of_N (N_of_ascii "P")) ∧
  (printable KEY_LEFT = true ∧ KEY_LEFT = Z.of_N (N_of_ascii "K")) ∧
  (printable KEY_RIGHT = true ∧ KEY_RIGHT = Z.of_N (N_of_ascii "M")).
Proof.
  split; [|by repeat split].
  unfold reserved_keys. repeat (apply NoDup_cons; split);
    [rewrite ?elem_of_cons, ?elem_of_nil; unfold KEY_UP, KEY_DOWN, KEY_LEFT,
       KEY_RIGHT, KEY_ENTER, KEY_BACKSPACE, KEY_ESC; lia ..|].
  apply NoDup_nil_2.
Qed.

(** C1 as the specification words it fails: a reserved code (that of UP,
    72) is a printable character. *)
Lemma reserved_keys_meet_printable :
  ¬ (NoDup reserved_keys ∧ Forall (λ k, printable k = false) reserved_keys).
Proof.
  intros [_ Hall]. apply Forall_cons in Hall as [Hup _]. discriminate Hup.
Qed.

(** ** Size detection *)

(** C6.  Whatever the size query reported, [detect_screen_size] replaces a
    non-positive width by 80 and keeps a positive one, and replaces a
    non-positive height by 24 and keeps a positive one, each axis on its
    own.  The queried pair is [ws_row], [ws_col] on POSIX and the extent of
    [srWindow] on Windows. *)
Theorem detect_screen_size_per_axis {p} (o : OS p) :
  let qh := (queried_size (reported o)).1 in
  let qw := (queried_size (reported o)).2 in
  let h := (detect_screen_size o).1 in
  let w := (detect_screen_size o).2 in
  (qw ≤ 0 → w = 80) ∧ (0 < qw → w = qw) ∧
  (qh ≤ 0 → h = 24) ∧ (0 < qh → h = qh).
Proof.
  unfold detect_screen_size. destruct (queried_size (reported o)) as [qh qw].
  simpl. destruct (Z.leb_spec qw 0), (Z.leb_spec qh 0); lia.
Qed.

Lemma queried_size_posix (o : OS POSIX) :
  queried_size (reported o)
  = (Termios.ws_row (reported o), Termios.ws_col (reported o)).
Proof. reflexivity. Qed.

Lemma queried_size_win32 (o : OS WIN32) :
  queried_size (reported o)
  = (Win.Bottom (reported o) - Win.Top (reported o) + 1,
     Win.Right (reported o) - Win.Left (reported o) + 1).
Proof. reflexivity. Qed.

Lemma detect_screen_size_positive {p} (o : OS p) :
  1 ≤ (detect_screen_size o).1 ∧ 1 ≤ (detect_screen_size o).2.
Proof.
  unfold detect_screen_size. destruct (queried_size (reported o)) as [qh qw].
  simpl. destruct (Z.leb_spec qw 0), (Z.leb_spec qh 0); lia.
Qed.

(** ** Raw mode *)

(** The control-character array keeps its length. *)
Lemma make_raw_cc_length (t : Termios.termios) :
  length (Termios.c_cc (Termios.make_raw t)) = length (Termios.c_cc t).
Proof. simpl. by rewrite !length_insert. Qed.

Lemma sample_termios_cc_length :
  length (Termios.c_cc sample_termios) = Termios.NCCS.
Proof. reflexivity. Qed.

(** Raw mode has ICANON and ECHO off, whatever the mode was. *)
Lemma make_raw_lflag (t : Termios.termios) :
  Z.land (Termios.c_lflag (Termios.make_raw t)) Termios.ICANON = 0 ∧
  Z.land (Termios.c_lflag (Termios.make_raw t)) Termios.ECHO = 0.
Proof.
  simpl. split; rewrite <- Z.land_assoc; apply Z.land_0_r.
Qed.

(** Setting raw mode again changes nothing more, on either platform. *)
Lemma raw_mode_idempotent {p} (mode : tty_mode p) :
  raw_mode (raw_mode mode) = raw_mode mode.
Proof.
  destruct p; simpl.
  - unfold Win.make_raw. apply Z.bits_inj'. intros n _.
    rewrite !Z.lor_spec, !Z.land_spec, !Z.lor_spec, !Z.land_spec.
    by destruct (Z.testbit mode n), (Z.testbit (Z.lnot _) n),
         (Z.testbit Win.ENABLE_MOUSE_INPUT n).
  - unfold Termios.make_raw; simpl. f_equal.
    + by rewrite <- Z.land_assoc, Z.land_diag.
    + rewrite (list_insert_insert_ne _ Termios.VMIN Termios.VTIME) by done.
      by rewrite !list_insert_insert_eq.
Qed.

(** ** Lifecycle: initscr, cbreak, endwin *)

Section Lifecycle.

Context {p : platform}.
Implicit Types (m : Machine p) (t : TerminalUI p).

Lemma setup_terminal_ui m :
  current_window (ui (setup_terminal m)) = current_window (ui m) ∧
  is_initialized (ui (setup_terminal m)) = is_initialized (ui m) ∧
  echo_mode (ui (setup_terminal m)) = echo_mode (ui m) ∧
  nodelay_mode (ui (setup_terminal m)) = nodelay_mode (ui m) ∧
  cursor_visible (ui (setup_terminal m)) = cursor_visible (ui m).
Proof. by destruct p. Qed.

(** [setup_terminal] stores the mode it finds and leaves the terminal in
    the raw variant of it. *)
Lemma setup_terminal_tty m :
  tty (os (setup_terminal m)) = raw_mode (tty (os m)).
Proof. by destruct p. Qed.

Lemma setup_then_restore m :
  tty (os (restore_terminal (setup_terminal m))) = tty (os m).
Proof. by destruct p. Qed.

Lemma restore_terminal_ui m : ui (restore_terminal m) = ui m.
Proof. by destruct p. Qed.

Lemma initscr_eq m :
  initscr m =
  new_WINDOW (detect_screen_size (os m)).1 (detect_screen_size (os m)).2 0 0
  ≫= λ win,
    Some (setup_terminal
            {| ui := set_current_window
                       (set_cursor_visible
                          (set_nodelay_mode
                             (set_echo_mode
                                (set_is_initialized (ui m) true) true) false)
                          true)
                       (Some win);
               os := os m |}).
Proof. unfold initscr. by destruct (detect_screen_size (os m)). Qed.

(** [initscr] always returns: the size it passes to the constructor is
    positive on both axes. *)
Lemma initscr_returns m :
  ∃ win,
    new_WINDOW (detect_screen_size (os m)).1 (detect_screen_size (os m)).2 0 0
    = Some win ∧
    initscr m =
    Some (setup_terminal
            {| ui := Build_TerminalUI (Some win) true true false true
                       (saved (ui m));
               os := os m |}).
Proof.
  rewrite initscr_eq. destruct (detect_screen_size_positive (os m)) as [Hh Hw].
  unfold new_WINDOW.
  rewrite (proj2 (andb_true_iff _ _)) by (rewrite !Z.leb_le; lia).
  eexists. split; [done|]. done.
Qed.

End Lifecycle.

(** ** Invariants of a run *)

Section Runs.

Context {p : platform}.
Implicit Types (m : Machine p) (t : TerminalUI p).

Lemma mvaddch_cases t (y x : Z) ch t' :
  (∀ w, current_window t = Some w → window_ok w) →
  mvaddch y x ch t = Some t' →
  t' = t ∨
  ∃ w', is_Some (current_window t) ∧ window_ok w' ∧
        t' = set_current_window t (Some w').
Proof.
  intros Hok. unfold mvaddch.
  destruct (current_window t) as [w|] eqn:Hw; [|left; congruence].
  destruct (_ && _) eqn:Hin; [|left; congruence].
  apply in_bounds_guard in Hin as [Hy Hx].
  destruct (window_ok_lookup w y (Hok w eq_refl) Hy) as [row Hrow].
  pose proof (window_ok_row _ _ _ (Hok w eq_refl) Hrow).
  rewrite (buffer_store_Some _ _ _ _ row) by (done || lia). simpl.
  intros [= <-]. right. eexists. split; [done|]. split; [|done].
  apply (window_ok_set_row _ _ row); [by apply Hok | done |].
  by rewrite length_insert.
Qed.

Lemma mvprintw_cases t (y x : Z) e t' :
  (∀ w, current_window t = Some w → window_ok w) →
  mvprintw y x e t = Some t' →
  t' = t ∨
  ∃ w', is_Some (current_window t) ∧ window_ok w' ∧
        t' = set_current_window t (Some w').
Proof.
  intros Hok. unfold mvprintw.
  destruct (current_window t) as [w|] eqn:Hw; [|left; congruence].
  destruct (_ || _) eqn:Hin; [left; congruence|].
  apply out_of_bounds_guard in Hin as [Hy Hx].
  destruct (window_ok_lookup w y (Hok w eq_refl) Hy) as [row Hrow].
  pose proof (window_ok_row _ _ _ (Hok w eq_refl) Hrow).
  rewrite (mvprintw_loop_row w y x 0 _ row) by (done || lia || by apply Hok).
  simpl. intros [= <-]. right. eexists. split; [done|]. split; [|done].
  apply (window_ok_set_row _ _ row); [by apply Hok | done |].
  rewrite !length_app, !length_take, length_drop. lia.
Qed.

Lemma getch_ui m :
  match getch m with
  | Returned _ m' | Unset m' => ui m' = ui m
  | Waits => True
  end.
Proof.
  destruct p; simpl.
  - destruct (Win.HANDLE_eqb _ _); [|done].
    by destruct (windows_getch _) as [[code rest]|].
  - by destruct (pending _).
Qed.

(** [getch] on POSIX puts back the settings it found. *)
Lemma getch_tty m :
  match getch m with
  | Returned _ m' | Unset m' => tty (os m') = tty (os m)
  | Waits => True
  end.
Proof.
  destruct p; simpl.
  - destruct (Win.HANDLE_eqb _ _); [|done].
    by destruct (windows_getch _) as [[code rest]|].
  - by destruct (pending _).
Qed.

Lemma refresh_ui m : ui (refresh m) = ui m.
Proof. unfold refresh. by destruct (current_window (ui m)). Qed.

Lemma consistent_new junk (o : OS p) :
  consistent {| ui := TerminalUI_new junk; os := o |}.
Proof. by split. Qed.

Lemma consistent_draw m t' :
  consistent m →
  t' = ui m ∨
  (∃ w', is_Some (current_window (ui m)) ∧ window_ok w' ∧
         t' = set_current_window (ui m) (Some w')) →
  consistent {| ui := t'; os := os m |}.
Proof.
  intros [Hinit Hok] [->|(w' & Hsome & Hok' & ->)]; [done|].
  split; simpl.
  - intros Hoff. rewrite (Hinit Hoff) in Hsome. by destruct Hsome.
  - by intros w [= <-].
Qed.

Lemma step_consistent m m' : consistent m → step m m' → consistent m'.
Proof.
  intros Hm Hstep. pose proof Hm as [Hinit Hok].
  destruct Hstep as
    [m m' Hs | m | m | m enable | m enable | m
    | m m' y x ch Hs | m m' y x e Hs
    | m m' code Hs | m m' Hs | m | m more | m size].
  - destruct (initscr_returns m) as (win & Hwin & Heq).
    rewrite Heq in Hs. injection Hs as <-.
    destruct (setup_terminal_ui
                {| ui := Build_TerminalUI (Some win) true true false true
                           (saved (ui m)); os := os m |})
      as (Hcw & Hin & _).
    split.
    + rewrite Hin. done.
    + rewrite Hcw. simpl. intros w [= <-]. by eapply new_WINDOW_ok.
  - unfold endwin. destruct (is_initialized (ui m)) eqn:Hon; simpl; [|done].
    rewrite restore_terminal_ui.
    split; simpl; destruct (current_window (ui m)) eqn:Hcw; simpl;
      rewrite ?Hcw; done.
  - done.
  - done.
  - done.
  - unfold cbreak. destruct (setup_terminal_ui m) as (Hcw & Hin & _).
    split; by rewrite ?Hcw, ?Hin.
  - unfold lift_draw in Hs.
    destruct (mvaddch y x ch (ui m)) as [t'|] eqn:Hdraw; [|done].
    injection Hs as <-. apply consistent_draw; [done|].
    by eapply mvaddch_cases.
  - unfold lift_draw in Hs.
    destruct (mvprintw y x e (ui m)) as [t'|] eqn:Hdraw; [|done].
    injection Hs as <-. apply consistent_draw; [done|].
    by eapply mvprintw_cases.
  - pose proof (getch_ui m) as Hui. rewrite Hs in Hui.
    split; by rewrite Hui.
  - pose proof (getch_ui m) as Hui. rewrite Hs in Hui.
    split; by rewrite Hui.
  - split; by rewrite refresh_ui.
  - done.
  - done.
Qed.

Lemma reachable_consistent m : reachable m → consistent m.
Proof.
  induction 1 as [junk o | m m' _ IH Hstep].
  - apply consistent_new.
  - by apply (step_consistent m).
Qed.

End Runs.

(** ** Start and stop *)

(** What [initscr] establishes.  It returns; afterwards echo is on,
    no-delay is off, the cursor is recorded visible, a window with origin
    (0, 0) is owned, and [getmaxyx] on it gives the detected size: both
    dimensions at least 1, and (24, 80) when the values read from the size
    structure are not positive on either axis. *)
Theorem initscr_postcondition {p} (m : Machine p) :
  ∃ m' w,
    initscr m = Some m' ∧
    echo_mode (ui m') = true ∧
    nodelay_mode (ui m') = false ∧
    cursor_visible (ui m') = true ∧
    current_window (ui m') = Some w ∧
    start_y w = 0 ∧ start_x w = 0 ∧
    window_ok w ∧
    getmaxyx (current_window (ui m')) = detect_screen_size (os m) ∧
    1 ≤ (getmaxyx (current_window (ui m'))).1 ∧
    1 ≤ (getmaxyx (current_window (ui m'))).2 ∧
    ((queried_size (reported (os m))).1 ≤ 0 →
     (queried_size (reported (os m))).2 ≤ 0 →
     getmaxyx (current_window (ui m')) = (24, 80)).
Proof.
  destruct (initscr_returns m) as (win & Hwin & Heq).
  destruct (setup_terminal_ui
              {| ui := Build_TerminalUI (Some win) true true false true
                         (saved (ui m)); os := os m |})
    as (Hcw & _ & Hecho & Hdelay & Hcur).
  simpl in Hcw, Hecho, Hdelay, Hcur.
  eexists _, win. split; [exact Heq|].
  rewrite Hcw, Hecho, Hdelay, Hcur.
  pose proof (new_WINDOW_ok _ _ _ _ _ Hwin) as Hok.
  pose proof (detect_screen_size_positive (os m)) as [Hh Hw].
  assert (getmaxyx (Some win) = detect_screen_size (os m)) as Hsize.
  { revert Hwin. unfold new_WINDOW. destruct (_ && _); [|done].
    intros [= <-]. simpl. by destruct (detect_screen_size (os m)). }
  assert (start_y win = 0 ∧ start_x win = 0) as [Hy Hx].
  { revert Hwin. unfold new_WINDOW. destruct (_ && _); [|done].
    by intros [= <-]. }
  rewrite Hsize. split_and!; try done.
  intros Hqh Hqw. unfold detect_screen_size.
  destruct (queried_size (reported (os m))) as [qh qw]. simpl in *.
  destruct (Z.leb_spec qw 0), (Z.leb_spec qh 0); (done || lia).
Qed.

(** C7 at a failing input.  With stdout not a terminal the size query
    fails; [detect_screen_size] does not look at its result and reads the
    structure as it was left, so [initscr] makes a window of whatever size
    the structure held: [getmaxyx] then gives (57248, 27544), not the
    default (24, 80). *)
Theorem initscr_failed_query :
  ∃ m',
    initscr piped_machine = Some m' ∧
    getmaxyx (current_window (ui m')) = (57248, 27544) ∧
    getmaxyx (current_window (ui m')) ≠ (24, 80).
Proof.
  destruct (initscr_postcondition piped_machine)
    as (m' & w & Heq & _ & _ & _ & _ & _ & _ & _ & Hsize & _).
  exists m'. split; [exact Heq|]. rewrite Hsize.
  split; [reflexivity | discriminate].
Qed.

(** C8 (stop).  [endwin] on an object that is not initialized changes
    nothing; after [endwin] the object is not initialized and, in any state
    a program can reach, owns no window; a second [endwin] right after the
    first changes nothing, the terminal configuration included. *)
Theorem endwin_idempotent {p} (m : Machine p) :
  (is_initialized (ui m) = false → endwin m = m) ∧
  is_initialized (ui (endwin m)) = false ∧
  (reachable m → current_window (ui (endwin m)) = None) ∧
  endwin (endwin m) = endwin m ∧
  tty (os (endwin (endwin m))) = tty (os (endwin m)).
Proof.
  assert (is_initialized (ui (endwin m)) = false) as Hoff.
  { unfold endwin. by destruct (is_initialized (ui m)) eqn:Hon. }
  assert (∀ m0 : Machine p, is_initialized (ui m0) = false → endwin m0 = m0)
    as Hnoop.
  { intros m0 H0. unfold endwin. by rewrite H0. }
  split; [apply Hnoop|]. split; [done|]. split.
  - intros Hreach. apply reachable_consistent in Hreach as [Hinit _].
    unfold endwin. destruct (is_initialized (ui m)) eqn:Hon; simpl.
    + rewrite restore_terminal_ui.
      by destruct (current_window (ui m)) eqn:Hcw; simpl.
    + by apply Hinit.
  - by rewrite (Hnoop (endwin m) Hoff).
Qed.

(** C9 (set_echo).  [noecho] clears the recorded echo flag and changes
    nothing else: not the operating system (terminal mode, pending input,
    display), not the saved terminal settings, not the window, not any
    other flag. *)
Theorem noecho_frame {p} (m : Machine p) :
  let m' := lift_ui noecho m in
  echo_mode (ui m') = false ∧
  os m' = os m ∧
  tty (os m') = tty (os m) ∧
  saved (ui m') = saved (ui m) ∧
  current_window (ui m') = current_window (ui m) ∧
  is_initialized (ui m') = is_initialized (ui m) ∧
  nodelay_mode (ui m') = nodelay_mode (ui m) ∧
  cursor_visible (ui m') = cursor_visible (ui m).
Proof. by repeat split. Qed.

(** The destructor stops an object that is still initialized; in every
    case it does what [endwin] does. *)
Lemma TerminalUI_delete_endwin {p} (m : Machine p) :
  TerminalUI_delete m = endwin m.
Proof.
  unfold TerminalUI_delete, endwin.
  by destruct (is_initialized (ui m)).
Qed.

(** ** Restoring the terminal *)

(** Stopping right after starting puts back the mode found at the start. *)
Lemma initscr_endwin_restores {p} (m m' : Machine p) :
  initscr m = Some m' → tty (os (endwin m')) = tty (os m).
Proof.
  destruct (initscr_returns m) as (win & _ & ->). intros [= <-].
  set (m0 := {| ui := _; os := os m |}).
  destruct (setup_terminal_ui m0) as (_ & Hin & _).
  unfold endwin. rewrite Hin. simpl.
  apply (setup_then_restore m0).
Qed.

(** With [cbreak] in between, [endwin] puts back the raw mode instead:
    [cbreak] runs [setup_terminal] again, which stores the mode it finds,
    and that is by then the raw one. *)
Lemma initscr_cbreak_endwin {p} (m m' : Machine p) :
  initscr m = Some m' →
  tty (os (endwin (cbreak m'))) = raw_mode (tty (os m)).
Proof.
  destruct (initscr_returns m) as (win & _ & ->). intros [= <-].
  set (m0 := {| ui := _; os := os m |}).
  destruct (setup_terminal_ui m0) as (_ & Hin0 & _).
  destruct (setup_terminal_ui (setup_terminal m0)) as (_ & Hin & _).
  unfold cbreak, endwin. rewrite Hin, Hin0. simpl.
  rewrite setup_then_restore. apply (setup_terminal_tty m0).
Qed.

(** C2 at a failing run.  On a POSIX terminal in cooked mode, start, cbreak,
    stop leaves the terminal in raw mode (ICANON and ECHO cleared,
    VMIN = 0), not in the mode found at the start; the same run without the
    cbreak restores that mode. *)
Theorem cbreak_overwrites_saved_mode :
  ∃ m1,
    initscr sample_machine = Some m1 ∧
    tty (os (endwin m1)) = tty (os sample_machine) ∧
    tty (os (endwin (cbreak m1))) = Termios.make_raw (tty (os sample_machine)) ∧
    tty (os (endwin (cbreak m1))) ≠ tty (os sample_machine) ∧
    Termios.c_lflag (tty (os sample_machine)) = 35387 ∧
    Termios.c_lflag (tty (os (endwin (cbreak m1)))) = 35377.
Proof.
  eexists. split; [reflexivity|].
  split; [reflexivity|]. split; [reflexivity|].
  split; [|split; reflexivity].
  intros Heq. apply (f_equal Termios.c_lflag) in Heq. discriminate Heq.
Qed.

(** ** Reading a key *)

(** On Windows a key-down record with one of the seven special virtual key
    codes gives the reserved code; with any other virtual key code and a
    non-zero character it gives the character. *)
Lemma key_down_code_translates (k : Win.KEY_EVENT_RECORD) :
  (Win.wVirtualKeyCode k = Win.VK_UP → key_down_code k = Some KEY_UP) ∧
  (Win.wVirtualKeyCode k = Win.VK_DOWN → key_down_code k = Some KEY_DOWN) ∧
  (Win.wVirtualKeyCode k = Win.VK_LEFT → key_down_code k = Some KEY_LEFT) ∧
  (Win.wVirtualKeyCode k = Win.VK_RIGHT → key_down_code k = Some KEY_RIGHT) ∧
  (Win.wVirtualKeyCode k = Win.VK_RETURN → key_down_code k = Some KEY_ENTER) ∧
  (Win.wVirtualKeyCode k = Win.VK_BACK → key_down_code k = Some KEY_BACKSPACE) ∧
  (Win.wVirtualKeyCode k = Win.VK_ESCAPE → key_down_code k = Some KEY_ESC) ∧
  (Win.wVirtualKeyCode k ∉ special_keys → Win.AsciiChar k ≠ 0 →
   key_down_code k = Some (Win.AsciiChar k)).
Proof.
  unfold key_down_code. split_and!; try (by intros ->).
  intros Hvk Hch. unfold special_keys in Hvk.
  rewrite !not_elem_of_cons in Hvk.
  destruct Hvk as (? & ? & ? & ? & ? & ? & ? & _).
  repeat (rewrite (proj2 (Z.eqb_neq _ _)) by done). done.
Qed.

Lemma win32_getch_key_down (m : Machine WIN32) k rest code :
  console_handle (ui m) = Win.ConIn →
  pending (os m) = Win.KeyEvent k :: rest →
  Win.bKeyDown k = true →
  key_down_code k = Some code →
  getch m = Returned code {| ui := ui m; os := set_pending (os m) rest |}.
Proof.
  intros Hh Hq Hdown Hcode. unfold getch. rewrite Hh, Hq. simpl.
  by rewrite Hdown, Hcode.
Qed.

(** Key-up records and records that are not key events are passed over. *)
Lemma windows_getch_skips ev rest :
  match ev with
  | Win.KeyEvent k => Win.bKeyDown k = false
  | Win.OtherEvent _ => True
  end →
  windows_getch (ev :: rest) = windows_getch rest.
Proof. destruct ev as [k|ty]; simpl; [by intros ->|done]. Qed.

(** On POSIX [getch] hands out the next byte as it is: no byte and no
    sequence of bytes is translated. *)
Lemma posix_getch_byte (m : Machine POSIX) byte rest :
  pending (os m) = byte :: rest →
  ∃ m', getch m = Returned (Termios.char_of_byte byte) m' ∧
        pending (os m') = rest.
Proof. intros Hq. unfold getch; simpl. rewrite Hq. by eexists. Qed.

(** C5 at a failing input.  With the up-arrow key pressed on a POSIX
    terminal, [getch] returns 27, the code reserved for ESC, and not the
    code reserved for UP; the rest of the key's bytes stay pending. *)
Theorem posix_getch_arrow_up :
  getch arrow_up_machine =
    Returned KEY_ESC
      {| ui := ui arrow_up_machine;
         os := set_pending (os arrow_up_machine) [91; 65] |} ∧
  KEY_ESC ≠ KEY_UP.
Proof. split; [reflexivity | discriminate]. Qed.

(** ** The statements at sample inputs *)

Lemma mvaddch_plot_witness :
  mvaddch 0 0 "Z" (TerminalUI_new (p:=POSIX) sample_termios)
    = Some (TerminalUI_new (p:=POSIX) sample_termios) ∧
  mvaddch 2 1 "Z" sample_ui = Some sample_ui ∧
  ∃ w', mvaddch 1 2 "Z" sample_ui = Some (set_current_window sample_ui (Some w')) ∧
        cell w' 1 2 = Some "Z"%char.
Proof.
  split; [|split].
  - apply (mvaddch_plot (TerminalUI_new (p:=POSIX) sample_termios) 0 0 "Z").
    reflexivity.
  - apply (proj1 (proj2 (mvaddch_plot sample_ui 2 1 "Z")) sample_window).
    + reflexivity.
    + simpl. lia.
  - apply (proj2 (proj2 (mvaddch_plot sample_ui 1 2 "Z")) sample_window).
    + reflexivity.
    + split; [reflexivity | repeat constructor].
    + simpl. lia.
    + simpl. lia.
Defined.

Lemma mvprintw_copies_witness :
  mvprintw 0 2 "HELLO" sample_ui =
  Some (set_current_window sample_ui
          (Some (with_buffer sample_window
                   [[" "; " "; "H"; "E"]%char; replicate 4 " "%char]))).
Proof.
  apply (proj2 (proj2 (proj2 (mvprintw_copies sample_ui 0 2 "HELLO")))
           sample_window (replicate 4 " "%char)).
  - reflexivity.
  - split; [reflexivity | repeat constructor].
  - simpl. lia.
  - simpl. lia.
  - reflexivity.
Defined.

Lemma drawing_frame_witness :
  ∃ w', mvprintw 1 1 "ab" sample_ui = Some (set_current_window sample_ui (Some w')) ∧
        geometry w' = geometry sample_window ∧ window_ok w' ∧
        ∀ r c, r ≠ 1%nat ∨ (c < 1)%nat → cell w' r c = cell sample_window r c.
Proof.
  refine (proj2 (drawing_frame sample_ui sample_window 1 1 _ _ _ _) "ab"%string).
  - reflexivity.
  - split; [reflexivity | repeat constructor].
  - simpl. lia.
  - simpl. lia.
Defined.

Lemma detect_screen_size_per_axis_witness :
  (detect_screen_size no_height_os).1 = 24 ∧
  (detect_screen_size no_height_os).2 = 132.
Proof.
  destruct (detect_screen_size_per_axis no_height_os) as (_ & Hw & Hh & _).
  split; [apply Hh | apply Hw]; simpl; lia.
Defined.

Lemma initscr_postcondition_witness :
  ∃ m', initscr no_size_machine = Some m' ∧
        getmaxyx (current_window (ui m')) = (24, 80).
Proof.
  destruct (initscr_postcondition no_size_machine)
    as (m' & w & Heq & _ & _ & _ & _ & _ & _ & _ & _ & _ & _ & Hdefault).
  exists m'. split; [exact Heq|]. apply Hdefault; simpl; lia.
Defined.

Lemma endwin_idempotent_witness :
  initscr sample_machine = Some started_machine ∧
  is_initialized (ui started_machine) = true ∧
  current_window (ui (endwin started_machine)) = None.
Proof.
  split; [reflexivity|]. split; [reflexivity|].
  apply (endwin_idempotent started_machine).
  apply (reachable_step sample_machine).
  - apply (reachable_new (p:=POSIX) sample_termios sample_os).
  - apply step_initscr. reflexivity.
Defined.

(** * Further properties of the code *)

(** ** The WINDOW constructor and the window of initscr *)

Lemma replicate_grid_cell (h k r c : nat) :
  replicate h (replicate k " "%char) !! r ≫= (λ row, row !! c)
  = if decide (r < h ∧ c < k)%nat then Some " "%char else None.
Proof.
  destruct (decide (r < h)%nat) as [Hr|Hr].
  - rewrite (proj2 (lookup_replicate _ _ _ _)) by done. simpl.
    destruct (decide (c < k)%nat) as [Hc|Hc].
    + rewrite (proj2 (lookup_replicate _ _ _ _)) by done.
      by rewrite decide_True.
    + rewrite lookup_ge_None_2 by (rewrite length_replicate; lia).
      rewrite decide_False by lia. done.
  - rewrite lookup_ge_None_2 by (rewrite length_replicate; lia).
    rewrite decide_False by lia. done.
Qed.

Lemma new_WINDOW_cells (h k y x : Z) win (r c : nat) :
  new_WINDOW h k y x = Some win →
  geometry win = (h, k, y, x) ∧
  cell win r c =
  if decide (Z.of_nat r < h ∧ Z.of_nat c < k) then Some " "%char else None.
Proof.
  unfold new_WINDOW. destruct (_ && _) eqn:Hpos; [|done].
  apply andb_prop in Hpos as [Hh Hk]. apply Z.leb_le in Hh, Hk.
  intros [= <-]. split; [done|]. unfold cell; simpl.
  rewrite replicate_grid_cell.
  destruct (decide (r < Z.to_nat h ∧ c < Z.to_nat k)%nat);
    [rewrite decide_True by lia | rewrite decide_False by lia]; done.
Qed.

(** X1.  The constructor throws when a size is negative; otherwise the
    window has the geometry asked for, [h] rows of [k] cells, and every
    cell inside holds a space (there is no cell outside). *)
Theorem new_WINDOW_grid (h k y x : Z) :
  (h < 0 ∨ k < 0 → new_WINDOW h k y x = None) ∧
  (0 ≤ h → 0 ≤ k →
   ∃ win, new_WINDOW h k y x = Some win ∧
          geometry win = (h, k, y, x) ∧ window_ok win ∧
          ∀ r c : nat,
            cell win r c =
            if decide (Z.of_nat r < h ∧ Z.of_nat c < k)
            then Some " "%char else None).
Proof.
  split.
  - intros Hneg. unfold new_WINDOW.
    destruct (_ && _) eqn:Hpos; [|done].
    apply andb_prop in Hpos as [Hh Hk]. apply Z.leb_le in Hh, Hk. lia.
  - intros Hh Hk.
    destruct (new_WINDOW h k y x) as [win|] eqn:Hnew.
    + exists win. split; [done|].
      split; [apply (new_WINDOW_cells h k y x win 0 0 Hnew)|].
      split; [by eapply new_WINDOW_ok|].
      intros r c. apply (new_WINDOW_cells h k y x win r c Hnew).
    + unfold new_WINDOW in Hnew.
      rewrite (proj2 (andb_true_iff _ _)) in Hnew by (rewrite !Z.leb_le; lia).
      done.
Qed.

Lemma setup_terminal_os {p} (m : Machine p) :
  pending (os (setup_terminal m)) = pending (os m) ∧
  reported (os (setup_terminal m)) = reported (os m) ∧
  display (os (setup_terminal m)) = display (os m) ∧
  handle_ready (ui (setup_terminal m)) = true.
Proof. by destruct p. Qed.

Lemma restore_terminal_os {p} (m : Machine p) :
  pending (os (restore_terminal m)) = pending (os m) ∧
  reported (os (restore_terminal m)) = reported (os m) ∧
  display (os (restore_terminal m)) = display (os m).
Proof.
  destruct p; [|done]. unfold restore_terminal, SetConsoleMode.
  by destruct (Win.HANDLE_eqb _ _).
Qed.

(** X2.  Whatever the object held before, [initscr] leaves it initialized
    with a window of blanks of the detected size (what an earlier window
    showed is gone), the terminal in the raw variant of the mode it was in,
    and on Windows the console input handle stored; it consumes no input
    and writes nothing to the display. *)
Theorem initscr_effects {p} (m : Machine p) :
  ∃ m' w,
    initscr m = Some m' ∧
    is_initialized (ui m') = true ∧
    current_window (ui m') = Some w ∧
    (height w, width w) = detect_screen_size (os m) ∧
    (∀ r c : nat,
       cell w r c =
       if decide (Z.of_nat r < height w ∧ Z.of_nat c < width w)
       then Some " "%char else None) ∧
    tty (os m') = raw_mode (tty (os m)) ∧
    handle_ready (ui m') = true ∧
    pending (os m') = pending (os m) ∧
    display (os m') = display (os m).
Proof.
  destruct (initscr_returns m) as (win & Hwin & Heq).
  set (m0 := {| ui := _; os := os m |}) in Heq.
  destruct (setup_terminal_ui m0) as (Hcw & Hin & _).
  destruct (setup_terminal_os m0) as (Hpend & _ & Hdisp & Hh).
  pose proof (new_WINDOW_cells _ _ _ _ win 0 0 Hwin) as [Hgeo _].
  injection Hgeo as Hht Hwd _ _.
  exists (setup_terminal m0), win. split_and!; try done.
  - rewrite Hht, Hwd. by destruct (detect_screen_size (os m)).
  - intros r c. rewrite Hht, Hwd.
    apply (new_WINDOW_cells _ _ _ _ win r c Hwin).
  - apply (setup_terminal_tty m0).
Qed.

(** ** The bits of raw mode *)

Lemma testbit_10 (n : Z) : 0 ≤ n → Z.testbit 10 n = (n =? 1) || (n =? 3).
Proof.
  intros Hn.
  assert (n = 0 ∨ n = 1 ∨ n = 2 ∨ n = 3 ∨ 4 ≤ n) as [->|[->|[->|[->|Hbig]]]]
    by lia; try reflexivity.
  rewrite Z.bits_above_log2 by (simpl; lia).
  symmetry. apply orb_false_iff. split; apply Z.eqb_neq; lia.
Qed.

Lemma testbit_7 (n : Z) : 0 ≤ n → Z.testbit 7 n = (n <? 3).
Proof.
  intros Hn.
  assert (n = 0 ∨ n = 1 ∨ n = 2 ∨ 3 ≤ n) as [->|[->|[->|Hbig]]]
    by lia; try reflexivity.
  rewrite Z.bits_above_log2 by (simpl; lia).
  symmetry. apply Z.ltb_ge. lia.
Qed.

Lemma testbit_16 (n : Z) : 0 ≤ n → Z.testbit 16 n = (n =? 4).
Proof.
  intros Hn. change 16 with (2 ^ 4). rewrite Z.pow2_bits_eqb by lia.
  apply Z.eqb_sym.
Qed.

(** X3.  On POSIX, raw mode differs from the mode it is made from in
    exactly this: bit 1 (ICANON) and bit 3 (ECHO) of [c_lflag] are off, and
    the control characters VMIN and VTIME are 0.  Every other bit of
    [c_lflag], the other three flag words and every other control character
    are kept. *)
Theorem termios_make_raw_bits (t : Termios.termios) :
  Termios.c_iflag (Termios.make_raw t) = Termios.c_iflag t ∧
  Termios.c_oflag (Termios.make_raw t) = Termios.c_oflag t ∧
  Termios.c_cflag (Termios.make_raw t) = Termios.c_cflag t ∧
  (∀ n, 0 ≤ n →
     Z.testbit (Termios.c_lflag (Termios.make_raw t)) n =
     Z.testbit (Termios.c_lflag t) n && negb ((n =? 1) || (n =? 3))) ∧
  (∀ i : nat, i ≠ Termios.VMIN → i ≠ Termios.VTIME →
     Termios.c_cc (Termios.make_raw t) !! i = Termios.c_cc t !! i) ∧
  (∀ i : nat, i = Termios.VMIN ∨ i = Termios.VTIME →
     (i < length (Termios.c_cc t))%nat →
     Termios.c_cc (Termios.make_raw t) !! i = Some 0).
Proof.
  split_and!; try done.
  - intros n Hn. simpl.
    rewrite Z.land_spec, Z.lnot_spec by done.
    change (Z.lor Termios.ICANON Termios.ECHO) with 10.
    by rewrite testbit_10.
  - intros i Hmin Htime. simpl.
    by rewrite !list_lookup_insert_ne.
  - intros i [->| ->] Hlen; simpl.
    + rewrite list_lookup_insert_ne by done.
      by apply list_lookup_insert_eq.
    + apply list_lookup_insert_eq. by rewrite length_insert.
Qed.

(** X4.  On Windows, raw mode is the mode it is made from with bits 0, 1
    and 2 (processed, line and echo input) off and bit 4 (mouse input) on;
    every other bit is kept. *)
Theorem console_make_raw_bits (mode n : Z) :
  0 ≤ n →
  Z.testbit (Win.make_raw mode) n =
  (Z.testbit mode n && negb (n <? 3)) || (n =? 4).
Proof.
  intros Hn. unfold Win.make_raw.
  rewrite Z.lor_spec, Z.land_spec, Z.lnot_spec by done.
  change (Z.lor (Z.lor Win.ENABLE_LINE_INPUT Win.ENABLE_ECHO_INPUT)
            Win.ENABLE_PROCESSED_INPUT) with 7.
  change Win.ENABLE_MOUSE_INPUT with 16.
  by rewrite testbit_7, testbit_16.
Qed.

(** ** What a run keeps *)

Section Keeping.

Context {p : platform}.
Implicit Types (m : Machine p) (t : TerminalUI p).

(** The fields of the object other than the window and the flags. *)
Lemma mvaddch_fields t (y x : Z) ch t' :
  mvaddch y x ch t = Some t' →
  saved t' = saved t ∧ is_initialized t' = is_initialized t ∧
  echo_mode t' = echo_mode t ∧ nodelay_mode t' = nodelay_mode t ∧
  cursor_visible t' = cursor_visible t.
Proof.
  unfold mvaddch. destruct (current_window t) as [w|]; [|by intros [= <-]].
  destruct (_ && _); [|by intros [= <-]].
  destruct (buffer_store _ _ _ _); simpl; [|done]. by intros [= <-].
Qed.

Lemma mvprintw_fields t (y x : Z) e t' :
  mvprintw y x e t = Some t' →
  saved t' = saved t ∧ is_initialized t' = is_initialized t ∧
  echo_mode t' = echo_mode t ∧ nodelay_mode t' = nodelay_mode t ∧
  cursor_visible t' = cursor_visible t.
Proof.
  unfold mvprintw. destruct (current_window t) as [w|]; [|by intros [= <-]].
  destruct (_ || _); [by intros [= <-]|].
  destruct (mvprintw_loop _ _ _ _ _); simpl; [|done]. by intros [= <-].
Qed.

Lemma refresh_os m :
  tty (os (refresh m)) = tty (os m) ∧
  pending (os (refresh m)) = pending (os m).
Proof. unfold refresh. by destruct (current_window (ui m)). Qed.

Lemma calm_step_keeps m m' :
  calm_step m m' →
  saved (ui m') = saved (ui m) ∧
  is_initialized (ui m') = is_initialized (ui m) ∧
  tty (os m') = tty (os m).
Proof.
  intros Hstep.
  destruct Hstep as
    [m | m enable | m enable | m m' y x ch Hs | m m' y x e Hs
    | m m' code Hs | m m' Hs | m | m more | m size]; try done.
  - unfold lift_draw in Hs.
    destruct (mvaddch y x ch (ui m)) as [t'|] eqn:Hdraw; [|done].
    injection Hs as <-. simpl.
    by destruct (mvaddch_fields _ _ _ _ _ Hdraw) as (-> & -> & _).
  - unfold lift_draw in Hs.
    destruct (mvprintw y x e (ui m)) as [t'|] eqn:Hdraw; [|done].
    injection Hs as <-. simpl.
    by destruct (mvprintw_fields _ _ _ _ _ Hdraw) as (-> & -> & _).
  - pose proof (getch_ui m) as Hui. pose proof (getch_tty m) as Htty.
    rewrite Hs in Hui, Htty. by rewrite Hui, Htty.
  - pose proof (getch_ui m) as Hui. pose proof (getch_tty m) as Htty.
    rewrite Hs in Hui, Htty. by rewrite Hui, Htty.
  - rewrite refresh_ui. by destruct (refresh_os m) as [-> _].
Qed.

Lemma calm_step_step m m' : calm_step m m' → step m m'.
Proof.
  intros Hstep.
  destruct Hstep as
    [m | m enable | m enable | m m' y x ch Hs | m m' y x e Hs
    | m m' code Hs | m m' Hs | m | m more | m size].
  - apply step_noecho.
  - apply step_keypad.
  - apply step_nodelay.
  - by eapply step_mvaddch.
  - by eapply step_mvprintw.
  - by eapply step_getch.
  - by apply step_getch_unset.
  - apply step_refresh.
  - apply step_typed.
  - apply step_resized.
Qed.

(** The mode [restore_terminal] sets depends on the stored fields alone. *)
Lemma restore_terminal_tty m1 m2 :
  saved (ui m1) = saved (ui m2) → tty (os m1) = tty (os m2) →
  tty (os (restore_terminal m1)) = tty (os (restore_terminal m2)).
Proof.
  destruct p; simpl.
  - unfold console_handle, old_console_mode, SetConsoleMode.
    intros -> Htty. by destruct (Win.HANDLE_eqb _ _).
  - unfold old_termios. by intros ->.
Qed.

Lemma restore_terminal_saved m :
  handle_ready (ui m) = true →
  tty (os (restore_terminal m)) = saved_mode (ui m).
Proof.
  destruct p; simpl; [|done].
  unfold SetConsoleMode. by intros ->.
Qed.

Lemma endwin_tty m :
  is_initialized (ui m) = true →
  tty (os (endwin m)) = tty (os (restore_terminal m)).
Proof. intros Hon. unfold endwin. by rewrite Hon. Qed.

(** X5.  Between [initscr] and [endwin], any number of calls of noecho,
    keypad, nodelay, mvaddch, mvprintw, getch and refresh, with keys typed
    and the terminal resized in between, leave the saved mode alone:
    [endwin] then puts the terminal back in the mode it had before
    [initscr]. *)
Theorem calm_run_restores m0 m1 m2 :
  initscr m0 = Some m1 →
  rtc calm_step m1 m2 →
  tty (os (endwin m2)) = tty (os m0).
Proof.
  intros Hinit Hrun.
  assert (saved (ui m2) = saved (ui m1) ∧
          is_initialized (ui m2) = is_initialized (ui m1) ∧
          tty (os m2) = tty (os m1)) as (Hsaved & Hon & Htty).
  { clear Hinit. induction Hrun as [m|m m' m'' Hstep _ IH]; [done|].
    destruct (calm_step_keeps _ _ Hstep) as (Hs & Hi & Ht).
    destruct IH as (IHs & IHi & IHt).
    by rewrite IHs, IHi, IHt. }
  destruct (initscr_returns m0) as (win & _ & Heq).
  rewrite Heq in Hinit. injection Hinit as <-.
  set (m := {| ui := _; os := os m0 |}) in *.
  destruct (setup_terminal_ui m) as (_ & Hin & _).
  rewrite endwin_tty by (by rewrite Hon, Hin).
  rewrite (restore_terminal_tty m2 (setup_terminal m)) by done.
  apply (setup_then_restore m).
Qed.

(** X6.  [cbreak] on a terminal that is already raw, as it is after
    [initscr] or after another [cbreak], leaves its mode as it is; and
    [cbreak] never touches the window, the flags, the pending input or the
    display. *)
Theorem cbreak_when_raw m :
  tty (os (cbreak (cbreak m))) = tty (os (cbreak m)) ∧
  (∀ m0, initscr m0 = Some m → tty (os (cbreak m)) = tty (os m)) ∧
  current_window (ui (cbreak m)) = current_window (ui m) ∧
  is_initialized (ui (cbreak m)) = is_initialized (ui m) ∧
  echo_mode (ui (cbreak m)) = echo_mode (ui m) ∧
  nodelay_mode (ui (cbreak m)) = nodelay_mode (ui m) ∧
  cursor_visible (ui (cbreak m)) = cursor_visible (ui m) ∧
  pending (os (cbreak m)) = pending (os m) ∧
  display (os (cbreak m)) = display (os m).
Proof.
  unfold cbreak.
  destruct (setup_terminal_ui m) as (Hcw & Hin & Hecho & Hdelay & Hcur).
  destruct (setup_terminal_os m) as (Hpend & _ & Hdisp & _).
  split_and!; try done.
  - by rewrite !setup_terminal_tty, raw_mode_idempotent.
  - intros m0 Hinit. destruct (initscr_returns m0) as (win & _ & Heq).
    rewrite Heq in Hinit. injection Hinit as <-.
    by rewrite !setup_terminal_tty, raw_mode_idempotent.
Qed.

(** X7.  [endwin] on an initialized object clears the display once, gives
    up the window and keeps the flags and the pending input; when the
    stored handle is the console input buffer (always, on POSIX) the
    terminal is then in the stored mode. *)
Theorem endwin_effects m :
  is_initialized (ui m) = true →
  display (os (endwin m)) = display (os m) ++ [Clear] ∧
  pending (os (endwin m)) = pending (os m) ∧
  current_window (ui (endwin m)) = None ∧
  echo_mode (ui (endwin m)) = echo_mode (ui m) ∧
  nodelay_mode (ui (endwin m)) = nodelay_mode (ui m) ∧
  cursor_visible (ui (endwin m)) = cursor_visible (ui m) ∧
  (handle_ready (ui m) = true → tty (os (endwin m)) = saved_mode (ui m)).
Proof.
  intros Hon. split_and!.
  - unfold endwin. rewrite Hon. simpl.
    by destruct (restore_terminal_os m) as (_ & _ & ->).
  - unfold endwin. rewrite Hon. simpl.
    by destruct (restore_terminal_os m) as (-> & _).
  - unfold endwin. rewrite Hon. simpl. rewrite restore_terminal_ui.
    by destruct (current_window (ui m)) eqn:Hcw.
  - unfold endwin. rewrite Hon. simpl. rewrite restore_terminal_ui.
    by destruct (current_window (ui m)).
  - unfold endwin. rewrite Hon. simpl. rewrite restore_terminal_ui.
    by destruct (current_window (ui m)).
  - unfold endwin. rewrite Hon. simpl. rewrite restore_terminal_ui.
    by destruct (current_window (ui m)).
  - intros Hh. rewrite endwin_tty by done. by apply restore_terminal_saved.
Qed.

End Keeping.

(** ** The object in every reachable state *)

Section Soundness.

Context {p : platform}.
Implicit Types (m : Machine p) (t : TerminalUI p).

Lemma handle_ready_saved t t' :
  saved t' = saved t → handle_ready t' = handle_ready t.
Proof.
  destruct p; simpl; [|done]. unfold console_handle. by intros ->.
Qed.

Lemma mvaddch_window t (y x : Z) ch t' :
  (∀ w, current_window t = Some w → window_ok w) →
  mvaddch y x ch t = Some t' →
  current_window t' = current_window t ∨
  ∃ w b, current_window t = Some w ∧
         current_window t' = Some (with_buffer w b) ∧
         window_ok (with_buffer w b).
Proof.
  intros Hok Hres. destruct (current_window t) as [w|] eqn:Hw.
  - destruct (decide (0 ≤ y < height w ∧ 0 ≤ x < width w)) as [[Hy Hx]|Hout].
    + right.
      destruct (window_ok_lookup w y (Hok w eq_refl) Hy) as [row Hrow].
      rewrite (mvaddch_in_bounds t w y x ch row) in Hres
        by (done || by apply Hok).
      injection Hres as <-. eexists w, _. split; [done|]. split; [done|].
      apply (window_ok_set_row _ _ row); [by apply Hok | done |].
      by rewrite length_insert.
    + left. unfold mvaddch in Hres. rewrite Hw in Hres.
      destruct (_ && _) eqn:Hin in Hres.
      * by apply in_bounds_guard in Hin.
      * by injection Hres as <-.
  - left. unfold mvaddch in Hres. rewrite Hw in Hres. by injection Hres as <-.
Qed.

Lemma mvprintw_window t (y x : Z) e t' :
  (∀ w, current_window t = Some w → window_ok w) →
  mvprintw y x e t = Some t' →
  current_window t' = current_window t ∨
  ∃ w b, current_window t = Some w ∧
         current_window t' = Some (with_buffer w b) ∧
         window_ok (with_buffer w b).
Proof.
  intros Hok Hres. destruct (current_window t) as [w|] eqn:Hw.
  - destruct (decide (0 ≤ y < height w ∧ 0 ≤ x < width w)) as [[Hy Hx]|Hout].
    + right.
      destruct (window_ok_lookup w y (Hok w eq_refl) Hy) as [row Hrow].
      pose proof (window_ok_row _ _ _ (Hok w eq_refl) Hrow) as Hlen.
      rewrite (mvprintw_in_bounds t w y x e row) in Hres
        by (done || by apply Hok).
      injection Hres as <-. eexists w, _. split; [done|]. split; [done|].
      apply (window_ok_set_row _ _ row); [by apply Hok | done |].
      rewrite !length_app, !length_take, length_drop. lia.
    + left. unfold mvprintw in Hres. rewrite Hw in Hres.
      destruct (_ || _) eqn:Hin in Hres.
      * by injection Hres as <-.
      * by apply out_of_bounds_guard in Hin.
  - left. unfold mvprintw in Hres. rewrite Hw in Hres. by injection Hres as <-.
Qed.

Lemma sound_new junk (o : OS p) : sound {| ui := TerminalUI_new junk; os := o |}.
Proof. by split. Qed.

(** [sound] speaks of the window, of [is_initialized] and of the stored
    fields only. *)
Lemma sound_fields m m' :
  current_window (ui m') = current_window (ui m) →
  is_initialized (ui m') = is_initialized (ui m) →
  saved (ui m') = saved (ui m) →
  sound m → sound m'.
Proof.
  intros Hcw Hon Hsaved [Hoff Hinit]. unfold sound.
  by rewrite Hcw, Hon, (handle_ready_saved _ _ Hsaved).
Qed.

Lemma sound_draw m t' :
  sound m →
  is_initialized t' = is_initialized (ui m) →
  saved t' = saved (ui m) →
  (current_window t' = current_window (ui m) ∨
   ∃ w b, current_window (ui m) = Some w ∧
          current_window t' = Some (with_buffer w b) ∧
          window_ok (with_buffer w b)) →
  sound {| ui := t'; os := os m |}.
Proof.
  intros Hm Hon Hsaved [Hcw|(w & b & Hw & Hw' & Hok')].
  - by apply (sound_fields m).
  - destruct Hm as [Hoff Hinit]. split; simpl.
    + rewrite Hon. intros H0. rewrite (Hoff H0) in Hw. done.
    + rewrite Hon, (handle_ready_saved _ _ Hsaved). intros H1.
      destruct (Hinit H1) as (Hh & w0 & Hw0 & _ & Hgeo).
      rewrite Hw in Hw0. injection Hw0 as <-.
      split; [done|]. exists (with_buffer w b).
      destruct Hgeo as (? & ? & ? & ?). by split_and!.
Qed.

Lemma sound_windows_ok m w :
  sound m → current_window (ui m) = Some w → window_ok w.
Proof.
  intros [Hoff Hinit] Hw.
  destruct (is_initialized (ui m)) eqn:Hon.
  - destruct (Hinit eq_refl) as (_ & w0 & Hw0 & Hok & _). congruence.
  - rewrite (Hoff eq_refl) in Hw. done.
Qed.

Lemma step_sound m m' : sound m → step m m' → sound m'.
Proof.
  intros Hm Hstep.
  destruct Hstep as
    [m m' Hs | m | m | m enable | m enable | m
    | m m' y x ch Hs | m m' y x e Hs
    | m m' code Hs | m m' Hs | m | m more | m size].
  - destruct (initscr_returns m) as (win & Hwin & Heq).
    rewrite Heq in Hs. injection Hs as <-.
    set (m0 := {| ui := _; os := os m |}).
    destruct (setup_terminal_ui m0) as (Hcw & Hin & _).
    destruct (setup_terminal_os m0) as (_ & _ & _ & Hh).
    pose proof (new_WINDOW_cells _ _ _ _ win 0 0 Hwin) as [Hgeo _].
    injection Hgeo as Hht Hwd Hy Hx.
    pose proof (detect_screen_size_positive (os m)) as [H1 H2].
    split; rewrite Hin; [done|]. intros _. split; [done|].
    exists win. rewrite Hcw, Hht, Hwd. split_and!; try done.
    by eapply new_WINDOW_ok.
  - unfold endwin. destruct (is_initialized (ui m)) eqn:Hon; simpl; [|done].
    rewrite restore_terminal_ui.
    split; simpl; destruct (current_window (ui m)) eqn:Hcw; simpl;
      rewrite ?Hcw; done.
  - by apply (sound_fields m).
  - by apply (sound_fields m).
  - by apply (sound_fields m).
  - unfold cbreak. destruct (setup_terminal_ui m) as (Hcw & Hin & _).
    destruct (setup_terminal_os m) as (_ & _ & _ & Hh).
    destruct Hm as [Hoff Hinit]. split; rewrite Hcw, Hin; [done|].
    intros Hon. destruct (Hinit Hon) as (_ & Hw). by rewrite Hh.
  - unfold lift_draw in Hs.
    destruct (mvaddch y x ch (ui m)) as [t'|] eqn:Hdraw; [|done].
    injection Hs as <-.
    destruct (mvaddch_fields _ _ _ _ _ Hdraw) as (Hsaved & Hon & _).
    apply sound_draw; [done..|].
    eapply mvaddch_window; [|done]. intros w. by apply sound_windows_ok.
  - unfold lift_draw in Hs.
    destruct (mvprintw y x e (ui m)) as [t'|] eqn:Hdraw; [|done].
    injection Hs as <-.
    destruct (mvprintw_fields _ _ _ _ _ Hdraw) as (Hsaved & Hon & _).
    apply sound_draw; [done..|].
    eapply mvprintw_window; [|done]. intros w. by apply sound_windows_ok.
  - pose proof (getch_ui m) as Hui. rewrite Hs in Hui.
    apply (sound_fields m); by rewrite ?Hui.
  - pose proof (getch_ui m) as Hui. rewrite Hs in Hui.
    apply (sound_fields m); by rewrite ?Hui.
  - apply (sound_fields m); by rewrite ?refresh_ui.
  - by apply (sound_fields m).
  - by apply (sound_fields m).
Qed.

(** X8.  In every state a program can reach, the object is initialized
    exactly when it owns a window; an owned window has [height] rows of
    [width] cells, at least one row and one column, and origin (0, 0); and
    on Windows an initialized object holds the console input handle. *)
Theorem reachable_sound m : reachable m → sound m.
Proof.
  induction 1 as [junk o | m m' _ IH Hstep].
  - apply sound_new.
  - by apply (step_sound m).
Qed.

(** X9.  Before [initscr] and after [endwin], in any reachable state, the
    drawing calls and [refresh] are harmless: [mvaddch] and [mvprintw]
    return with the object as it was, [refresh] writes nothing, and
    [getmaxyx] on the object's window pointer gives (0, 0). *)
Theorem idle_object_ignores_drawing m :
  reachable m → is_initialized (ui m) = false →
  (∀ y x ch, mvaddch y x ch (ui m) = Some (ui m)) ∧
  (∀ y x e, mvprintw y x e (ui m) = Some (ui m)) ∧
  refresh m = m ∧
  getmaxyx (current_window (ui m)) = (0, 0).
Proof.
  intros Hreach Hoff.
  destruct (reachable_consistent m Hreach) as [Hnone _].
  specialize (Hnone Hoff).
  unfold mvaddch, mvprintw, refresh. rewrite Hnone. done.
Qed.

End Soundness.

(** ** Reading keys on Windows *)

Lemma key_down_code_range (k : Win.KEY_EVENT_RECORD) code :
  key_down_code k = Some code →
  code ≠ 0 ∧
  (code ∈ reserved_keys ∨
   ((Win.wVirtualKeyCode k ∉ special_keys) ∧ code = Win.AsciiChar k)).
Proof.
  unfold key_down_code. intros Hcode.
  repeat case_match; simplify_eq;
    try (split; [discriminate|left; unfold reserved_keys;
                 rewrite !elem_of_cons; tauto]).
  repeat match goal with
         | H : (_ =? _) = false |- _ => apply Z.eqb_neq in H
         | H : negb (_ =? _) = true |- _ =>
             apply negb_true_iff, Z.eqb_neq in H
         end.
  split; [done|]. right. split; [|done].
  unfold special_keys. rewrite !not_elem_of_cons.
  split_and!; try done. apply not_elem_of_nil.
Qed.

Lemma windows_getch_skip skipped q :
  Forall (λ ev, qualifies ev = false) skipped →
  windows_getch (skipped ++ q) = windows_getch q.
Proof.
  induction 1 as [|ev skipped Hev _ IH]; [done|]. simpl.
  destruct ev as [k|ty]; [|done]. simpl in Hev.
  destruct (Win.bKeyDown k); [|done].
  by destruct (key_down_code k).
Qed.

Lemma windows_getch_found (q : list Win.INPUT_RECORD) code rest :
  windows_getch q = Some (code, rest) →
  ∃ skipped k,
    q = skipped ++ Win.KeyEvent k :: rest ∧
    Forall (λ ev, qualifies ev = false) skipped ∧
    Win.bKeyDown k = true ∧
    key_down_code k = Some code.
Proof.
  induction q as [|ev q IH]; [done|]. simpl.
  assert (windows_getch q = Some (code, rest) →
          qualifies ev = false →
          ∃ skipped k, ev :: q = skipped ++ Win.KeyEvent k :: rest ∧
            Forall (λ ev, qualifies ev = false) skipped ∧
            Win.bKeyDown k = true ∧ key_down_code k = Some code) as Hnext.
  { intros Hq Hev. destruct (IH Hq) as (skipped & k & -> & Hsk & Hk).
    exists (ev :: skipped), k. split; [done|]. split; [|done].
    by constructor. }
  destruct ev as [k|ty]; [|by intros Hq; apply Hnext].
  destruct (Win.bKeyDown k) eqn:Hdown.
  - destruct (key_down_code k) as [c|] eqn:Hcode.
    + intros [= <- <-]. by exists [], k.
    + intros Hq. apply Hnext; [done|]. simpl. by rewrite Hdown, Hcode.
  - intros Hq. apply Hnext; [done|]. simpl. by rewrite Hdown.
Qed.

(** X10.  [windows_getch] returns [code] and leaves [rest] in the queue
    exactly when the queue is: records on which the loop does not return
    (records that are no key events, key-up records, key-down records with
    no special key and character 0), then a key-down record that gives
    [code], then [rest]. *)
Theorem windows_getch_returns (q : list Win.INPUT_RECORD) code rest :
  windows_getch q = Some (code, rest) ↔
  ∃ skipped k,
    q = skipped ++ Win.KeyEvent k :: rest ∧
    Forall (λ ev, qualifies ev = false) skipped ∧
    Win.bKeyDown k = true ∧
    key_down_code k = Some code.
Proof.
  split; [apply windows_getch_found|].
  intros (skipped & k & -> & Hsk & Hdown & Hcode).
  rewrite windows_getch_skip by done. simpl. by rewrite Hdown, Hcode.
Qed.

(** X11.  [windows_getch] goes on waiting exactly when no record of the
    queue makes the loop return. *)
Theorem windows_getch_waits (q : list Win.INPUT_RECORD) :
  windows_getch q = None ↔ Forall (λ ev, qualifies ev = false) q.
Proof.
  split.
  - induction q as [|ev q IH]; [by constructor|]. simpl.
    destruct ev as [k|ty].
    + destruct (Win.bKeyDown k) eqn:Hdown.
      * destruct (key_down_code k) as [c|] eqn:Hcode; [done|].
        intros Hq. constructor; [|by apply IH]. simpl.
        by rewrite Hdown, Hcode.
      * intros Hq. constructor; [|by apply IH]. simpl. by rewrite Hdown.
    + intros Hq. constructor; [done|by apply IH].
  - intros Hall. rewrite <- (app_nil_r q). by rewrite windows_getch_skip.
Qed.

(** X12.  On Windows a [getch] that returns never returns 0: the code is
    one of the seven key codes or the non-zero character of a key that is
    none of the seven.  It takes at least one record from the queue, and
    leaves the object and the console mode as they were. *)
Theorem win32_getch_returned (m m' : Machine WIN32) code :
  getch m = Returned code m' →
  code ≠ 0 ∧
  (code ∈ reserved_keys ∨
   ∃ k, Win.KeyEvent k ∈ pending (os m) ∧
        (Win.wVirtualKeyCode k ∉ special_keys) ∧ code = Win.AsciiChar k) ∧
  (∃ taken, taken ≠ [] ∧ pending (os m) = taken ++ pending (os m')) ∧
  ui m' = ui m ∧ tty (os m') = tty (os m) ∧ display (os m') = display (os m).
Proof.
  unfold getch. destruct (Win.HANDLE_eqb _ _); [|done].
  destruct (windows_getch (pending (os m))) as [[c rest]|] eqn:Hq; [|done].
  intros [= <- <-]. simpl.
  apply windows_getch_found in Hq as (skipped & k & Hpend & _ & _ & Hcode).
  destruct (key_down_code_range k c Hcode) as [Hnz Hkind].
  split_and!; try done.
  - destruct Hkind as [Hres|[Hvk Hch]]; [by left|]. right.
    exists k. split; [|done]. rewrite Hpend. set_solver.
  - exists (skipped ++ [Win.KeyEvent k]). split.
    + by destruct skipped.
    + by rewrite Hpend, <- app_assoc.
Qed.

(** ** Reading keys on POSIX *)

(** X13.  On POSIX [getch] with nothing pending returns the unset [ch]
    and leaves the machine exactly as it was; with a byte pending it
    returns that byte as a [char] (between -128 and 127, the byte itself
    below 128) and leaves the machine as it was but for that one byte: the
    terminal settings it changed for the read are put back. *)
Theorem posix_getch_restores (m : Machine POSIX) :
  (pending (os m) = [] → getch m = Unset m) ∧
  (∀ byte rest, pending (os m) = byte :: rest →
     getch m = Returned (Termios.char_of_byte byte)
                 {| ui := ui m; os := set_pending (os m) rest |} ∧
     (0 ≤ byte < 256 →
      -128 ≤ Termios.char_of_byte byte < 128 ∧
      (byte < 128 → Termios.char_of_byte byte = byte))).
Proof.
  destruct m as [t [mode q size out]]. simpl. split.
  - by intros ->.
  - intros byte rest ->. split; [done|].
    unfold Termios.char_of_byte. intros Hbyte.
    destruct (Z.ltb_spec byte 128); lia.
Qed.

(** ** The flags and getch *)

(** X14.  [getch] reads none of the flags: after [nodelay], [noecho] or
    [keypad], with any argument, it returns or waits as before, with the
    same code and the same effect on the operating system.  In particular
    [nodelay(true)] does not keep the Windows [getch] from waiting. *)
Theorem getch_ignores_flags {p} (m : Machine p) (enable : bool) :
  getch_outcome (getch (lift_ui (nodelay enable) m)) = getch_outcome (getch m) ∧
  getch_outcome (getch (lift_ui noecho m)) = getch_outcome (getch m) ∧
  getch_outcome (getch (lift_ui (keypad enable) m)) = getch_outcome (getch m) ∧
  (getch m = Waits → getch (lift_ui (nodelay true) m) = Waits).
Proof.
  assert (∀ m1 m2 : Machine p,
            os m1 = os m2 → saved (ui m1) = saved (ui m2) →
            getch_outcome (getch m1) = getch_outcome (getch m2)) as Hext.
  { intros m1 m2 Hos Hsaved. destruct p; simpl.
    - unfold console_handle. rewrite Hos, Hsaved.
      destruct (Win.HANDLE_eqb _ _); [|done].
      by destruct (windows_getch _) as [[c rest]|].
    - rewrite Hos. by destruct (pending (os m2)). }
  split_and!; try by apply Hext.
  intros Hwait.
  pose proof (Hext (lift_ui (nodelay true) m) m eq_refl eq_refl) as Hsame.
  rewrite Hwait in Hsame.
  by destruct (getch (lift_ui (nodelay true) m)).
Qed.

(** ** refresh *)

(** A line feed written for a cell ends the line as [std::endl] does. *)
Lemma lines_from_line_feed rows cur es :
  lines_from rows cur (Put LF :: es) = lines_from rows cur (Endl :: es).
Proof. reflexivity. Qed.

Lemma lines_from_row rows cur row es :
  LF ∉ row →
  lines_from rows cur ((Put <$> row) ++ Endl :: es)
  = lines_from (rows ++ [cur ++ row]) [] es.
Proof.
  revert cur. induction row as [|ch row IH]; intros cur Hrow; simpl.
  - by rewrite app_nil_r.
  - apply not_elem_of_cons in Hrow as [Hch Hrow].
    destruct (Ascii.eqb_spec ch LF) as [->|_]; [done|].
    by rewrite IH, <- app_assoc.
Qed.

Lemma lines_from_rows rows (buf : list (list ascii)) :
  Forall (λ row, LF ∉ row) buf →
  lines_from rows [] (buf ≫= λ row, (Put <$> row) ++ [Endl]) = rows ++ buf.
Proof.
  intros Hbuf. revert rows.
  induction Hbuf as [|row buf Hrow _ IH]; intros rows; simpl.
  - by rewrite app_nil_r.
  - rewrite <- app_assoc. simpl. rewrite lines_from_row, IH by done.
    by rewrite <- app_assoc.
Qed.

Lemma lines_from_clear rows cur es1 es2 :
  lines_from rows cur (es1 ++ Clear :: es2) = lines_from [] [] es2.
Proof.
  revert rows cur. induction es1 as [|ev es1 IH]; intros rows cur; [done|].
  destruct ev as [|ch|]; simpl; [apply IH | | apply IH].
  destruct (Ascii.eqb ch LF); apply IH.
Qed.

Lemma elem_of_insert_inv {A} (l : list A) (i : nat) (a x : A) :
  x ∈ <[i := a]> l → x = a ∨ x ∈ l.
Proof.
  revert i. induction l as [|b l IH]; intros i; simpl; [by right|].
  destruct i as [|i]; simpl; rewrite !elem_of_cons.
  - intros [->|Hx]; [by left | by right; right].
  - intros [->|Hx]; [by right; left|].
    destruct (IH i Hx) as [->|Hin]; [by left | by right; right].
Qed.


(** X16.  On a window with its declared rows and columns and no line feed
    in any cell, a character other than the line feed plotted in bounds is,
    after the next [refresh], at its column of its row among the lines
    written to stdout since the clearing. *)
Theorem mvaddch_then_refresh {p} (m : Machine p) w (y x : Z) ch :
  current_window (ui m) = Some w → window_ok w →
  Forall (λ row, LF ∉ row) (buffer w) →
  ch ≠ LF →
  0 ≤ y < height w → 0 ≤ x < width w →
  ∃ m', lift_draw (mvaddch y x ch) m = Some m' ∧
        written_lines (display (os (refresh m'))) !! Z.to_nat y
          ≫= (λ row, row !! Z.to_nat x) = Some ch.
Proof.
  intros Hw Hok Hbuf Hch Hy Hx.
  destruct (window_ok_lookup w y Hok Hy) as [row Hrow].
  pose proof (window_ok_row _ _ _ Hok Hrow) as Hlen.
  unfold lift_draw.
  rewrite (mvaddch_in_bounds (ui m) w y x ch row) by done. simpl.
  eexists. split; [done|].
  unfold refresh. simpl. unfold written_lines.
  rewrite lines_from_clear, lines_from_rows.
  - simpl. rewrite list_lookup_insert_eq by by eapply lookup_lt_Some.
    simpl. apply list_lookup_insert_eq. lia.
  - apply Forall_insert; [done|].
    intros Hin. apply elem_of_insert_inv in Hin as [Heq|Hin]; [by apply Hch|].
    by apply (proj1 (Forall_lookup _ _) Hbuf _ _ Hrow).
Qed.

(** ** The formatting buffer *)

Lemma c_str_spec (cs : list ascii) :
  c_str cs `prefix_of` cs ∧ (Ascii.zero ∉ c_str cs) ∧
  (Ascii.zero ∉ cs → c_str cs = cs).
Proof.
  induction cs as [|c cs (Hpre & Hnz & Hid)]; simpl.
  - split_and!; [done | apply not_elem_of_nil | done].
  - destruct (Ascii.eqb_spec c Ascii.zero) as [->|Hc].
    + split_and!; [apply prefix_nil | apply not_elem_of_nil |].
      intros Hno. exfalso. apply Hno. by left.
    + split_and!.
      * by apply prefix_cons.
      * rewrite not_elem_of_cons. by split.
      * intros Hno. apply not_elem_of_cons in Hno as [_ Hno].
        by rewrite Hid.
Qed.


(** ** How the drawing calls compose *)

Section Composing.

Context {p : platform}.
Implicit Types (t : TerminalUI p) (w : WINDOW) (ch : ascii) (e : string).

(** The guard of [mvprintw] is the negation of the guard of [mvaddch]. *)
Lemma guards_agree w (y x : Z) :
  (y <? 0) || (height w <=? y) || (x <? 0) || (width w <=? x)
  = negb ((0 <=? y) && (y <? height w) && (0 <=? x) && (x <? width w)).
Proof.
  rewrite !negb_andb. by rewrite <- !Z.ltb_antisym, <- !Z.leb_antisym.
Qed.

Lemma mvaddch_skip t w (y x : Z) ch :
  current_window t = Some w →
  ¬ (0 ≤ y < height w ∧ 0 ≤ x < width w) →
  mvaddch y x ch t = Some t.
Proof.
  intros Hw Hout. unfold mvaddch. rewrite Hw.
  destruct (_ && _) eqn:Hin; [|done]. by apply in_bounds_guard in Hin.
Qed.

(** X18.  Printing a string of one character other than NUL is plotting
    that character: [mvprintw(y, x, "%c", c)] and [mvaddch(y, x, c)] agree
    in every state, undefined behaviour included. *)
Theorem mvprintw_one_char t (y x : Z) ch :
  ch ≠ Ascii.zero →
  mvprintw y x (String ch EmptyString) t = mvaddch y x ch t.
Proof.
  intros Hch. unfold mvprintw, mvaddch.
  destruct (current_window t) as [w|]; [|done].
  rewrite guards_agree.
  destruct (_ && _) eqn:Hin; simpl; [|done].
  apply in_bounds_guard in Hin as [Hy Hx].
  unfold formatted. simpl.
  destruct (Ascii.eqb_spec ch Ascii.zero) as [|_]; [done|]. simpl.
  rewrite Z.add_0_r, (proj2 (Z.ltb_lt _ _)) by lia.
  by destruct (buffer_store w (Z.to_nat y) (Z.to_nat x) ch).
Qed.

(** X19.  The last plot at a cell wins: plotting at (y, x) after a plot
    at the same (y, x) gives what the second plot alone gives. *)
Theorem mvaddch_overwrite t t1 (y x : Z) c1 c2 :
  mvaddch y x c1 t = Some t1 →
  mvaddch y x c2 t1 = mvaddch y x c2 t.
Proof.
  unfold mvaddch. destruct (current_window t) as [w|] eqn:Hw.
  - destruct (_ && _) eqn:Hin.
    + unfold buffer_store.
      destruct (buffer w !! Z.to_nat y) as [row|] eqn:Hrow; simpl; [|done].
      case_decide as Hx; [|done]. intros [= <-]. simpl. rewrite Hin.
      rewrite list_lookup_insert_eq by by eapply lookup_lt_Some.
      simpl. rewrite length_insert, !decide_True by done. simpl.
      by rewrite !list_insert_insert_eq.
    + intros [= <-]. by rewrite Hw, Hin.
  - intros [= <-]. by rewrite Hw.
Qed.

(** X20.  Plots at two different cells of a window with its declared rows
    and columns can be made in either order. *)
Theorem mvaddch_commute t w (y1 x1 y2 x2 : Z) c1 c2 :
  current_window t = Some w → window_ok w →
  (y1, x1) ≠ (y2, x2) →
  mvaddch y1 x1 c1 t ≫= mvaddch y2 x2 c2
  = mvaddch y2 x2 c2 t ≫= mvaddch y1 x1 c1.
Proof.
  intros Hw Hok Hne.
  destruct (decide (0 ≤ y1 < height w ∧ 0 ≤ x1 < width w)) as [[Hy1 Hx1]|Hout1];
    destruct (decide (0 ≤ y2 < height w ∧ 0 ≤ x2 < width w)) as [[Hy2 Hx2]|Hout2].
  - destruct (window_ok_lookup w y1 Hok Hy1) as [row1 Hrow1].
    destruct (window_ok_lookup w y2 Hok Hy2) as [row2 Hrow2].
    pose proof (window_ok_row _ _ _ Hok Hrow1) as Hlen1.
    pose proof (window_ok_row _ _ _ Hok Hrow2) as Hlen2.
    pose proof (lookup_lt_Some _ _ _ Hrow1) as Hlt1.
    pose proof (lookup_lt_Some _ _ _ Hrow2) as Hlt2.
    rewrite (mvaddch_in_bounds t w y1 x1 c1 row1) by done.
    rewrite (mvaddch_in_bounds t w y2 x2 c2 row2) by done. simpl.
    set (w1 := with_buffer w (<[Z.to_nat y1 := _]> (buffer w))).
    set (w2 := with_buffer w (<[Z.to_nat y2 := _]> (buffer w))).
    assert (window_ok w1) as Hok1.
    { apply (window_ok_set_row _ _ row1); [done..|]. by rewrite length_insert. }
    assert (window_ok w2) as Hok2.
    { apply (window_ok_set_row _ _ row2); [done..|]. by rewrite length_insert. }
    destruct (decide (Z.to_nat y1 = Z.to_nat y2)) as [Hy|Hy].
    + assert (row2 = row1) as -> by congruence.
      assert (Z.to_nat x1 ≠ Z.to_nat x2) as Hx.
      { intros Hx. apply Hne. f_equal; lia. }
      rewrite (mvaddch_in_bounds _ w1 y2 x2 c2 (<[Z.to_nat x1 := c1]> row1));
        [|done..|subst w1; simpl; rewrite <- Hy; by apply list_lookup_insert_eq].
      rewrite (mvaddch_in_bounds _ w2 y1 x1 c1 (<[Z.to_nat x2 := c2]> row1));
        [|done..|subst w2; simpl; rewrite Hy; by apply list_lookup_insert_eq].
      subst w1 w2. unfold with_buffer, set_current_window. simpl.
      rewrite Hy, !list_insert_insert_eq.
      by rewrite (list_insert_insert_ne row1 (Z.to_nat x2) (Z.to_nat x1)).
    + rewrite (mvaddch_in_bounds _ w1 y2 x2 c2 row2);
        [|done..|subst w1; simpl; by rewrite list_lookup_insert_ne].
      rewrite (mvaddch_in_bounds _ w2 y1 x1 c1 row1);
        [|done..|subst w2; simpl; by rewrite list_lookup_insert_ne].
      subst w1 w2. unfold with_buffer, set_current_window. simpl.
      by rewrite (list_insert_insert_ne (buffer w) (Z.to_nat y2) (Z.to_nat y1)).
  - destruct (window_ok_lookup w y1 Hok Hy1) as [row1 Hrow1].
    rewrite (mvaddch_skip t w y2 x2 c2) by done.
    rewrite (mvaddch_in_bounds t w y1 x1 c1 row1) by done. simpl.
    rewrite (mvaddch_in_bounds t w y1 x1 c1 row1) by done.
    by erewrite mvaddch_skip.
  - destruct (window_ok_lookup w y2 Hok Hy2) as [row2 Hrow2].
    rewrite (mvaddch_skip t w y1 x1 c1) by done.
    rewrite (mvaddch_in_bounds t w y2 x2 c2 row2) by done. simpl.
    rewrite (mvaddch_in_bounds t w y2 x2 c2 row2) by done.
    by erewrite mvaddch_skip.
  - rewrite (mvaddch_skip t w y1 x1 c1), (mvaddch_skip t w y2 x2 c2) by done.
    simpl. by rewrite (mvaddch_skip t w y1 x1 c1), (mvaddch_skip t w y2 x2 c2).
Qed.

End Composing.

(** ** Printing in pieces *)

Lemma buffer_store_geometry w (y x : nat) ch w' :
  buffer_store w y x ch = Some w' → geometry w' = geometry w.
Proof.
  unfold buffer_store. destruct (buffer w !! y); simpl; [|done].
  case_decide; [|done]. by intros [= <-].
Qed.

Lemma mvprintw_loop_geometry str : ∀ w (y x : Z) i w',
  mvprintw_loop w y x i str = Some w' → geometry w' = geometry w.
Proof.
  induction str as [|c rest IH]; intros w y x i w'; simpl.
  - by intros [= <-].
  - destruct (x + Z.of_nat i <? width w); [|by intros [= <-]].
    destruct (buffer_store _ _ _ _) as [w1|] eqn:Hst; simpl; [|done].
    intros Hrest. rewrite (IH _ _ _ _ _ Hrest).
    by eapply buffer_store_geometry.
Qed.

(** Past the right edge the loop stops at once. *)
Lemma mvprintw_loop_edge w (y x : Z) i str :
  width w ≤ x + Z.of_nat i → mvprintw_loop w y x i str = Some w.
Proof.
  intros Hedge. destruct str as [|c rest]; simpl; [done|].
  by rewrite (proj2 (Z.ltb_ge _ _)).
Qed.

(** Only the column [x + i] matters to the loop. *)
Lemma mvprintw_loop_shift str : ∀ w (y x x' : Z) i i',
  x + Z.of_nat i = x' + Z.of_nat i' →
  mvprintw_loop w y x i str = mvprintw_loop w y x' i' str.
Proof.
  induction str as [|c rest IH]; intros w y x x' i i' Hcol; simpl; [done|].
  rewrite Hcol. destruct (_ <? _); [|done].
  destruct (buffer_store _ _ _ _) as [w1|]; simpl; [|done].
  apply IH. lia.
Qed.

Lemma mvprintw_loop_app s1 : ∀ s2 w (y x : Z) i,
  mvprintw_loop w y x i (s1 ++ s2)
  = mvprintw_loop w y x i s1
    ≫= λ w', mvprintw_loop w' y x (i + length s1) s2.
Proof.
  induction s1 as [|c s1 IH]; intros s2 w y x i; simpl.
  - by rewrite Nat.add_0_r.
  - destruct (x + Z.of_nat i <? width w) eqn:Hlt.
    + destruct (buffer_store _ _ _ _) as [w1|]; simpl; [|done].
      rewrite IH. by replace (S i + length s1)%nat with (i + S (length s1))%nat by lia.
    + simpl. symmetry. apply mvprintw_loop_edge.
      apply Z.ltb_ge in Hlt. lia.
Qed.

Lemma list_ascii_of_string_app (e1 e2 : string) :
  list_ascii_of_string (e1 ++ e2)
  = list_ascii_of_string e1 ++ list_ascii_of_string e2.
Proof. induction e1 as [|c e1 IH]; simpl; [done|]. by rewrite IH. Qed.

Lemma c_str_app (l1 l2 : list ascii) :
  Ascii.zero ∉ l1 → c_str (l1 ++ l2) = l1 ++ c_str l2.
Proof.
  induction l1 as [|c l1 IH]; simpl; [done|].
  intros Hno. apply not_elem_of_cons in Hno as [Hc Hno].
  destruct (Ascii.eqb_spec c Ascii.zero) as [->|_]; [done|].
  by rewrite IH.
Qed.

(** X21.  Printing a text in two pieces, the second where the first ends,
    gives what printing it in one call gives, when the start is in bounds,
    the first piece has no NUL and the whole fits the formatting buffer.
    This holds at the right edge too: once the first piece reaches it, the
    second call starts out of bounds and writes nothing, as the single call
    stops there. *)
Theorem mvprintw_in_pieces {p} (t : TerminalUI p) w (y x : Z) (e1 e2 : string) :
  current_window t = Some w →
  0 ≤ y < height w → 0 ≤ x < width w →
  Ascii.zero ∉ list_ascii_of_string e1 →
  (length (list_ascii_of_string (e1 ++ e2)) ≤ 1023)%nat →
  mvprintw y x (e1 ++ e2) t
  = mvprintw y x e1 t
    ≫= mvprintw y (x + Z.of_nat (length (list_ascii_of_string e1))) e2.
Proof.
  intros Hw Hy Hx Hno Hfit.
  rewrite list_ascii_of_string_app, length_app in Hfit.
  assert (formatted e1 = list_ascii_of_string e1) as Hf1.
  { unfold formatted. rewrite take_ge by lia.
    by apply (c_str_spec (list_ascii_of_string e1)). }
  assert (formatted (e1 ++ e2) = formatted e1 ++ formatted e2) as Hf.
  { rewrite Hf1. unfold formatted.
    rewrite list_ascii_of_string_app, !take_ge by (rewrite ?length_app; lia).
    by apply c_str_app. }
  assert (∀ e, mvprintw y x e t =
               mvprintw_loop w y x 0 (formatted e)
               ≫= λ w', Some (set_current_window t (Some w'))) as Hprint.
  { intros e. unfold mvprintw. rewrite Hw.
    by rewrite (proj2 (out_of_bounds_guard w y x)). }
  rewrite !Hprint, Hf, mvprintw_loop_app, Hf1. simpl.
  destruct (mvprintw_loop w y x 0 (list_ascii_of_string e1)) as [w1|] eqn:Hfirst;
    simpl; [|done].
  pose proof (mvprintw_loop_geometry _ _ _ _ _ _ Hfirst) as Hgeo.
  injection Hgeo as Hht Hwd _ _.
  set (n := length (list_ascii_of_string e1)).
  unfold mvprintw. simpl. rewrite Hht, Hwd.
  destruct (decide (x + Z.of_nat n < width w)) as [Hroom|Hedge].
  - rewrite (proj2 (out_of_bounds_guard w y (x + Z.of_nat n))) by lia.
    by rewrite (mvprintw_loop_shift _ w1 y x (x + Z.of_nat n) n 0) by lia.
  - rewrite mvprintw_loop_edge by lia. simpl.
    destruct (_ || _) eqn:Hguard; [done|].
    apply out_of_bounds_guard in Hguard. lia.
Qed.

(** ** The further statements at sample inputs *)

Lemma new_WINDOW_grid_witness :
  new_WINDOW (-1) 4 0 0 = None ∧
  ∃ win, new_WINDOW 2 4 0 0 = Some win ∧ cell win 1 3 = Some " "%char ∧
         cell win 2 0 = None.
Proof.
  split.
  - apply (proj1 (new_WINDOW_grid (-1) 4 0 0)). lia.
  - destruct (proj2 (new_WINDOW_grid 2 4 0 0)) as (win & Hnew & _ & _ & Hcell);
      [lia | lia |].
    exists win. split; [exact Hnew|]. split.
    + rewrite (Hcell 1%nat 3%nat). reflexivity.
    + rewrite (Hcell 2%nat 0%nat). reflexivity.
Defined.

Lemma termios_make_raw_bits_witness :
  Z.testbit (Termios.c_lflag (Termios.make_raw sample_termios)) 3 = false ∧
  Z.testbit (Termios.c_lflag (Termios.make_raw sample_termios)) 0 = true ∧
  Termios.c_cc (Termios.make_raw sample_termios) !! Termios.VMIN = Some 0.
Proof.
  destruct (termios_make_raw_bits sample_termios)
    as (_ & _ & _ & Hbits & _ & Hcc).
  split; [|split].
  - rewrite (Hbits 3); [reflexivity | lia].
  - rewrite (Hbits 0); [reflexivity | lia].
  - apply Hcc; [by left | cbv; lia].
Defined.

Lemma console_make_raw_bits_witness :
  Z.testbit (Win.make_raw 487) 1 = false ∧
  Z.testbit (Win.make_raw 487) 4 = true ∧
  Z.testbit (Win.make_raw 487) 5 = Z.testbit 487 5.
Proof.
  split; [|split].
  - rewrite (console_make_raw_bits 487 1); [reflexivity | lia].
  - rewrite (console_make_raw_bits 487 4); [reflexivity | lia].
  - rewrite (console_make_raw_bits 487 5); [reflexivity | lia].
Defined.

Lemma calm_run_restores_witness :
  tty (os (endwin (refresh (lift_ui noecho started_machine)))) = sample_termios.
Proof.
  apply (calm_run_restores sample_machine started_machine).
  - reflexivity.
  - eapply rtc_l; [apply calm_noecho|].
    eapply rtc_l; [apply calm_refresh|]. apply rtc_refl.
Defined.

Lemma cbreak_when_raw_witness :
  tty (os (cbreak started_machine)) = tty (os started_machine).
Proof.
  apply (proj1 (proj2 (cbreak_when_raw started_machine)) sample_machine).
  reflexivity.
Defined.

Lemma endwin_effects_witness :
  display (os (endwin started_machine)) = [Clear] ∧
  tty (os (endwin started_machine)) = sample_termios.
Proof.
  destruct (endwin_effects started_machine)
    as (Hdisp & _ & _ & _ & _ & _ & Htty); [reflexivity|].
  split; [exact Hdisp | apply Htty; reflexivity].
Defined.

Lemma reachable_sound_witness : sound started_machine.
Proof.
  apply reachable_sound.
  apply (reachable_step sample_machine).
  - apply (reachable_new (p:=POSIX) sample_termios sample_os).
  - apply step_initscr. reflexivity.
Defined.

Lemma idle_object_ignores_drawing_witness :
  mvaddch 0 0 "Z" (ui sample_machine) = Some (ui sample_machine) ∧
  refresh sample_machine = sample_machine.
Proof.
  destruct (idle_object_ignores_drawing sample_machine)
    as (Hplot & _ & Hrefresh & _).
  - apply (reachable_new (p:=POSIX) sample_termios sample_os).
  - reflexivity.
  - split; [apply Hplot | exact Hrefresh].
Defined.

Lemma windows_getch_returns_witness :
  windows_getch (pending (os win_machine)) = Some (97, [Win.OtherEvent 4]).
Proof.
  apply windows_getch_returns.
  exists (take 3 (pending (os win_machine))),
    {| Win.bKeyDown := true; Win.wVirtualKeyCode := 65; Win.AsciiChar := 97 |}.
  split; [reflexivity|]. split; [|split; reflexivity].
  repeat constructor.
Defined.

Lemma windows_getch_waits_witness :
  windows_getch (take 3 (pending (os win_machine))) = None.
Proof. apply windows_getch_waits. repeat constructor. Defined.

Lemma win32_getch_returned_witness :
  ∃ m', getch win_machine = Returned 97 m' ∧
        ui m' = ui win_machine ∧ tty (os m') = tty (os win_machine).
Proof.
  eexists. split; [reflexivity|].
  destruct (win32_getch_returned win_machine _ 97 eq_refl)
    as (_ & _ & _ & Hui & Htty & _).
  split; [exact Hui | exact Htty].
Defined.

Lemma posix_getch_restores_witness :
  getch sample_machine = Unset sample_machine ∧
  getch arrow_up_machine =
    Returned 27 {| ui := ui arrow_up_machine;
                   os := set_pending (os arrow_up_machine) [91; 65] |}.
Proof.
  split.
  - apply (proj1 (posix_getch_restores sample_machine)). reflexivity.
  - destruct (proj2 (posix_getch_restores arrow_up_machine) 27 [91; 65] eq_refl)
      as [Hret _].
    exact Hret.
Defined.

Lemma getch_ignores_flags_witness :
  getch (lift_ui (nodelay true)
           {| ui := ui win_machine;
              os := set_pending (os win_machine) [Win.OtherEvent 2] |})
  = Waits.
Proof.
  apply (getch_ignores_flags
           {| ui := ui win_machine;
              os := set_pending (os win_machine) [Win.OtherEvent 2] |} true).
  reflexivity.
Defined.


Lemma mvaddch_then_refresh_witness :
  ∃ m', lift_draw (mvaddch 0 1 "Z") strip_machine = Some m' ∧
        written_lines (display (os (refresh m'))) !! 0%nat
          ≫= (λ row, row !! 1%nat)
        = Some "Z"%char.
Proof.
  apply (mvaddch_then_refresh strip_machine strip_window 0 1 "Z").
  - reflexivity.
  - split; [reflexivity | repeat constructor].
  - repeat constructor; simpl; intros Hin;
      repeat (apply elem_of_cons in Hin as [Hin|Hin]; [discriminate Hin|]);
      by apply elem_of_nil in Hin.
  - discriminate.
  - simpl; lia.
  - simpl; lia.
Defined.


Lemma mvprintw_one_char_witness :
  mvprintw 0 1 "Z" (ui strip_machine) = mvaddch 0 1 "Z" (ui strip_machine).
Proof. apply mvprintw_one_char. discriminate. Defined.

Lemma mvaddch_overwrite_witness :
  mvaddch 0 1 "Z" (ui strip_machine) ≫= mvaddch 0 1 "Y"
  = mvaddch 0 1 "Y" (ui strip_machine).
Proof.
  destruct (mvaddch 0 1 "Z" (ui strip_machine)) as [t1|] eqn:Hfirst.
  - simpl. exact (mvaddch_overwrite (ui strip_machine) t1 0 1 "Z" "Y" Hfirst).
  - discriminate Hfirst.
Defined.

Lemma mvaddch_commute_witness :
  mvaddch 0 0 "Z" (ui strip_machine) ≫= mvaddch 0 2 "Y"
  = mvaddch 0 2 "Y" (ui strip_machine) ≫= mvaddch 0 0 "Z".
Proof.
  apply (mvaddch_commute (ui strip_machine) strip_window).
  - reflexivity.
  - split; [reflexivity | repeat constructor].
  - discriminate.
Defined.

Lemma mvprintw_in_pieces_witness :
  mvprintw 0 1 "xyzw" (ui strip_machine)
  = mvprintw 0 1 "xy" (ui strip_machine) ≫= mvprintw 0 3 "zw".
Proof.
  apply (mvprintw_in_pieces (ui strip_machine) strip_window 0 1 "xy" "zw").
  - reflexivity.
  - simpl; lia.
  - simpl; lia.
  - simpl. intros Hin.
    repeat (apply elem_of_cons in Hin as [Hin|Hin]; [discriminate Hin|]).
    by apply elem_of_nil in Hin.
  - simpl. lia.
Defined.
